(** * Proactive agent: lifecycle state machine, task queue and wakeup triggers

    Shallow embedding of [backend/proactive/core.py], [task_scheduler.py]
    and [wakeup.py].

    Conventions:
    - a Python [datetime] is a [Z] (microseconds on the local clock), a
      [timedelta] a [Z] of the same unit;
    - each [datetime.now()] read is an explicit argument; reads inside one
      synchronous block (no [await] between them) share one argument;
    - a method that raises returns [Raise e]; the state it mutated before
      raising is kept, as in Python;
    - persistence ([_save_task_to_db]) and printing have no effect on the
      modelled state: the database writes catch their own exceptions. *)

From Stdlib Require Import List String ZArith Lia Bool Sorted Permutation RelationClasses DecimalNat.
From Stdlib Require SpecFloat.
Import ListNotations.
Open Scope Z_scope.

Definition datetime := Z.
Definition timedelta := Z.

(** Python exceptions raised by the modelled code. *)
Inductive PyExn := ValueError (msg : string).

(** Result of a Python call: a return value or a raised exception. *)
Inductive Outcome (A : Type) := Return (a : A) | Raise (e : PyExn).
Arguments Return {A} a.
Arguments Raise {A} e.

(** Python slicing [l[start:]] with a possibly negative [start]. *)
Definition py_slice_from {A} (l : list A) (start : Z) : list A :=
  let n := Z.of_nat (List.length l) in
  let i := if start <? 0 then Z.max 0 (n + start) else Z.min start n in
  skipn (Z.to_nat i) l.

(** Python slicing [l[:stop]] with a non-negative [stop]. *)
Definition py_slice_to {A} (l : list A) (stop : nat) : list A := firstn stop l.

(** A day counts the days since 1970-01-01 (a Thursday); a [time] of day
    is its offset from midnight. *)
Definition day_us : timedelta := 86400000000.
Definition hour_us : timedelta := 3600000000.
Definition minute_us : timedelta := 60000000.

(** [datetime.combine(d, t)]. *)
Definition combine (d : Z) (tod : timedelta) : datetime := d * day_us + tod.

(** [date.weekday()]: Monday is 0, Sunday 6. *)
Definition weekday (d : Z) : Z := (d + 3) mod 7.

(* ------------------------------------------------------------------ *)
(** ** core.py *)

Module Core.

Inductive AgentState := SLEEPING | WAKING_UP | AWAKE | WORKING | GOING_TO_SLEEP.

Definition AgentState_eqb (a b : AgentState) : bool :=
  match a, b with
  | SLEEPING, SLEEPING | WAKING_UP, WAKING_UP | AWAKE, AWAKE
  | WORKING, WORKING | GOING_TO_SLEEP, GOING_TO_SLEEP => true
  | _, _ => false
  end.

(** [str(state)] of the enum, as printed in the error message. *)
Definition AgentState_str (s : AgentState) : string :=
  match s with
  | SLEEPING => "AgentState.SLEEPING"
  | WAKING_UP => "AgentState.WAKING_UP"
  | AWAKE => "AgentState.AWAKE"
  | WORKING => "AgentState.WORKING"
  | GOING_TO_SLEEP => "AgentState.GOING_TO_SLEEP"
  end.

Record StateTransition := mkStateTransition {
  from_state : AgentState;
  to_state : AgentState;
  timestamp : datetime;
  reason : string
}.

Record AgentContext := mkAgentContext {
  current_state : AgentState;
  last_wakeup : option datetime;
  last_sleep : option datetime;
  tasks_completed_today : Z;
  next_scheduled_task : option datetime;
  user_is_active : bool;
  profile_last_updated : option datetime
}.

(** The fields of [ProactiveCore] the state machine reads and writes. *)
Record ProactiveCore := mkProactiveCore {
  _state : AgentState;
  _transitions : list StateTransition;
  _context : AgentContext
}.

(** [ProactiveCore.__init__]. *)
Definition init_core : ProactiveCore :=
  mkProactiveCore SLEEPING []
    (mkAgentContext SLEEPING None None 0 None false None).

(** Field updates of the context. *)
Definition ctx_set_current_state (s : AgentState) (c : AgentContext) : AgentContext :=
  mkAgentContext s c.(last_wakeup) c.(last_sleep) c.(tasks_completed_today)
    c.(next_scheduled_task) c.(user_is_active) c.(profile_last_updated).
Definition ctx_set_last_wakeup (t : datetime) (c : AgentContext) : AgentContext :=
  mkAgentContext c.(current_state) (Some t) c.(last_sleep) c.(tasks_completed_today)
    c.(next_scheduled_task) c.(user_is_active) c.(profile_last_updated).
Definition ctx_set_last_sleep (t : datetime) (c : AgentContext) : AgentContext :=
  mkAgentContext c.(current_state) c.(last_wakeup) (Some t) c.(tasks_completed_today)
    c.(next_scheduled_task) c.(user_is_active) c.(profile_last_updated).
Definition ctx_set_tasks_completed_today (n : Z) (c : AgentContext) : AgentContext :=
  mkAgentContext c.(current_state) c.(last_wakeup) c.(last_sleep) n
    c.(next_scheduled_task) c.(user_is_active) c.(profile_last_updated).
Definition ctx_set_profile_last_updated (t : option datetime) (c : AgentContext)
  : AgentContext :=
  mkAgentContext c.(current_state) c.(last_wakeup) c.(last_sleep) c.(tasks_completed_today)
    c.(next_scheduled_task) c.(user_is_active) t.

(** A method of [ProactiveCore]: state passing with Python exceptions. *)
Definition M (A : Type) := ProactiveCore -> Outcome A * ProactiveCore.

Definition ret {A} (a : A) : M A := fun c => (Return a, c).
Definition bind {A B} (m : M A) (k : A -> M B) : M B :=
  fun c => match m c with
           | (Return a, c') => k a c'
           | (Raise e, c') => (Raise e, c')
           end.
Notation "x <- m ;; k" := (bind m (fun x => k)) (at level 61, m at next level, right associativity).
Notation "m ;;; k" := (bind m (fun _ => k)) (at level 61, right associativity).

(** [_is_valid_transition]: the [valid_transitions] table. *)
Definition valid_transitions (s : AgentState) : list AgentState :=
  match s with
  | SLEEPING => [WAKING_UP]
  | WAKING_UP => [AWAKE; SLEEPING]
  | AWAKE => [WORKING; GOING_TO_SLEEP; SLEEPING]
  | WORKING => [AWAKE; GOING_TO_SLEEP]
  | GOING_TO_SLEEP => [SLEEPING; AWAKE]
  end.

Definition _is_valid_transition (from_s to_s : AgentState) : bool :=
  existsb (AgentState_eqb to_s) (valid_transitions from_s).

Definition invalid_transition_msg (old_s new_s : AgentState) : string :=
  ("Invalid state transition: " ++ AgentState_str old_s ++ " -> "
     ++ AgentState_str new_s)%string.

(** [if len(self._transitions) > 100: self._transitions = self._transitions[-100:]] *)
Definition keep_last_100 (ts : list StateTransition) : list StateTransition :=
  if (100 <? Z.of_nat (List.length ts)) then py_slice_from ts (-100) else ts.

(** [_transition_to(new_state, reason)]; [now] is the clock read of the
    block.  The listeners are called inside [try/except], so a failing
    listener neither raises nor changes the modelled fields. *)
Definition _transition_to (new_state : AgentState) (why : string) (now : datetime)
  : M unit :=
  fun c =>
    let old_state := c.(_state) in
    if negb (_is_valid_transition old_state new_state) then
      (Raise (ValueError (invalid_transition_msg old_state new_state)), c)
    else
      let tr := mkStateTransition old_state new_state now why in
      let ts := keep_last_100 (c.(_transitions) ++ [tr]) in
      let ctx := ctx_set_current_state new_state c.(_context) in
      let ctx := match new_state with
                 | AWAKE => ctx_set_last_wakeup now ctx
                 | SLEEPING => ctx_set_last_sleep now ctx
                 | _ => ctx
                 end in
      (Return tt, mkProactiveCore new_state ts ctx).

(** [now.date()]. *)
Definition date_of (t : datetime) : Z := t / 86400000000.

(** [_on_wakeup]: [profile] is [None] when no profile manager is attached
    and [Some lu] when its summary reports [last_updated = lu].  The call
    to [ensure_daily_tasks] acts on the task scheduler only. *)
Definition _on_wakeup (profile : option (option datetime)) (now : datetime) : M unit :=
  fun c =>
    let ctx := match profile with
               | Some lu => ctx_set_profile_last_updated lu c.(_context)
               | None => c.(_context)
               end in
    let ctx := match ctx.(last_wakeup) with
               | Some lw => if date_of lw <? date_of now
                            then ctx_set_tasks_completed_today 0 ctx else ctx
               | None => ctx
               end in
    (Return tt, mkProactiveCore c.(_state) c.(_transitions) ctx).

(** [_on_going_to_sleep]: [pass]. *)
Definition _on_going_to_sleep : M unit := ret tt.

Definition get_state : M AgentState := fun c => (Return c.(_state), c).

(** [wake_up(reason)]; [t1], [t2], [t3] are the clock reads of the two
    transitions and of [_on_wakeup]. *)
Definition wake_up (why : string) (profile : option (option datetime))
  (t1 t2 t3 : datetime) : M bool :=
  s <- get_state ;;
  match s with
  | SLEEPING | GOING_TO_SLEEP =>
      _transition_to WAKING_UP why t1 ;;;
      _on_wakeup profile t2 ;;;
      _transition_to AWAKE "Initialization complete" t3 ;;;
      ret true
  | _ => ret false
  end.

(** [go_to_sleep(reason)]. *)
Definition go_to_sleep (why : string) (t1 t2 : datetime) : M bool :=
  s <- get_state ;;
  match s with
  | SLEEPING => ret true
  | WORKING => ret false
  | _ =>
      _transition_to GOING_TO_SLEEP why t1 ;;;
      _on_going_to_sleep ;;;
      _transition_to SLEEPING "Sleep preparation complete" t2 ;;;
      ret true
  end.

(** [force_state(new_state, reason)]. *)
Definition force_state (new_state : AgentState) (why : string) (now : datetime) : M unit :=
  fun c =>
    let old_state := c.(_state) in
    let ctx := ctx_set_current_state new_state c.(_context) in
    let tr := mkStateTransition old_state new_state now ("[FORCED] " ++ why)%string in
    (Return tt, mkProactiveCore new_state (c.(_transitions) ++ [tr]) ctx).

(** The state-changing entry points of the core, for runs of several calls. *)
Inductive CoreOp :=
| OpTransitionTo (s : AgentState) (why : string) (now : datetime)
| OpForceState (s : AgentState) (why : string) (now : datetime)
| OpWakeUp (why : string) (profile : option (option datetime)) (t1 t2 t3 : datetime)
| OpGoToSleep (why : string) (t1 t2 : datetime).

Definition run_op (op : CoreOp) : M unit :=
  match op with
  | OpTransitionTo s why now => _transition_to s why now
  | OpForceState s why now => force_state s why now
  | OpWakeUp why p t1 t2 t3 => wake_up why p t1 t2 t3 ;;; ret tt
  | OpGoToSleep why t1 t2 => go_to_sleep why t1 t2 ;;; ret tt
  end.

(** The cores after each call of a run; a raised exception is handled by
    the caller and the run goes on from the state the call left. *)
Fixpoint run_ops (ops : list CoreOp) (c : ProactiveCore) : list ProactiveCore :=
  match ops with
  | [] => []
  | op :: rest => let c' := snd (run_op op c) in c' :: run_ops rest c'
  end.

(** The transition table as the specification lists it. *)
Definition spec_table : list (AgentState * AgentState) :=
  [(SLEEPING, WAKING_UP);
   (WAKING_UP, AWAKE); (WAKING_UP, SLEEPING);
   (AWAKE, WORKING); (AWAKE, GOING_TO_SLEEP); (AWAKE, SLEEPING);
   (WORKING, AWAKE); (WORKING, GOING_TO_SLEEP);
   (GOING_TO_SLEEP, SLEEPING); (GOING_TO_SLEEP, AWAKE)].

(** A core that [force_state] has put in [GOING_TO_SLEEP]. *)
Definition core_going_to_sleep : ProactiveCore :=
  snd (force_state GOING_TO_SLEEP "Forced by user" 0 init_core).

(** 25 rounds of [wake_up] and [go_to_sleep] (100 logged transitions),
    then one [force_state]. *)
Definition ops_101 : list CoreOp :=
  List.concat (repeat [OpWakeUp "Manual wakeup" None 1 2 3; OpGoToSleep "Idle timeout" 4 5] 25%nat)
  ++ [OpForceState AWAKE "Forced by user" 6].

(** A sleeping core whose last wakeup was on day 0 and that has finished
    three tasks that day. *)
Definition core_at_day0 : ProactiveCore :=
  mkProactiveCore SLEEPING []
    (mkAgentContext SLEEPING (Some 5) None 3 None false None).

(** [is_sleeping]. *)
Definition is_sleeping (c : ProactiveCore) : bool :=
  match c.(_state) with SLEEPING => true | _ => false end.

(** [self._idle_timeout = timedelta(minutes=5)]. *)
Definition _idle_timeout : timedelta := 5 * minute_us.

(** [_should_sleep]; [now] is the clock read of both [datetime.now()] calls.
    A [datetime] is always truthy. *)
Definition _should_sleep (now : datetime) : M bool :=
  fun c =>
    let ctx := c.(_context) in
    let soon := match ctx.(next_scheduled_task) with
                | Some nt => nt - now <? 10 * minute_us
                | None => false
                end in
    if soon then (Return false, c)
    else match ctx.(last_wakeup) with
         | Some lw => if _idle_timeout <? now - lw then (Return true, c) else (Return false, c)
         | None => (Return false, c)
         end.

(** The state part of [stop], after [_running] is cleared and the main loop
    task is cancelled: a core not in [SLEEPING] goes there by [_transition_to]. *)
Definition stop (now : datetime) : M unit :=
  s <- get_state ;;
  match s with
  | SLEEPING => ret tt
  | _ => _transition_to SLEEPING "System shutdown" now
  end.

(** The calls of a run that do not go through [force_state]. *)
Definition unforced (op : CoreOp) : bool :=
  match op with OpForceState _ _ _ => false | _ => true end.

(** A property of cores kept by every step of a method. *)
Definition kept (P : ProactiveCore -> Prop) {A} (m : M A) : Prop :=
  forall c, P c -> P (snd (m c)).

(** [context.current_state] mirrors [_state]. *)
Definition mirrored (c : ProactiveCore) : Prop := c.(_context).(current_state) = c.(_state).

(** The log holds at most 100 records. *)
Definition log_bounded (c : ProactiveCore) : Prop := (List.length c.(_transitions) <= 100)%nat.

(** [context.next_scheduled_task] is unset. *)
Definition no_next_task (c : ProactiveCore) : Prop :=
  c.(_context).(next_scheduled_task) = None.

End Core.

(* ------------------------------------------------------------------ *)
(** ** task_scheduler.py *)

Module Scheduler.

Inductive TaskType :=
| SELF_REFLECTION | UPDATE_PROFILE | CONSOLIDATE_KNOWLEDGE | DISCOVER_PATTERNS
| LEARN_FROM_HISTORY | SUMMARIZE_PERIOD | EXPLORE_TOPIC | FILL_KNOWLEDGE_GAP
| HEALTH_CHECK | CLEANUP.

Inductive TaskStatus := PENDING | SCHEDULED | IN_PROGRESS | COMPLETED | FAILED | CANCELLED.

Definition TaskStatus_eqb (a b : TaskStatus) : bool :=
  match a, b with
  | PENDING, PENDING | SCHEDULED, SCHEDULED | IN_PROGRESS, IN_PROGRESS
  | COMPLETED, COMPLETED | FAILED, FAILED | CANCELLED, CANCELLED => true
  | _, _ => false
  end.

(** [ProactiveTask]; the JSON values of [context] are kept as strings. *)
Record ProactiveTask := mkProactiveTask {
  id : string;
  type : TaskType;
  title : string;
  description : string;
  scheduled_time : option datetime;
  recurring : bool;
  recurrence_interval : option timedelta;
  priority : Z;
  status : TaskStatus;
  created_at : datetime;
  started_at : option datetime;
  completed_at : option datetime;
  execution_time_ms : option Z;
  result : option string;
  error : option string;
  target_file : option string;
  context : list (string * string)
}.

(** In-place updates of a task object, one per assignment block of the code. *)
Definition set_status (st : TaskStatus) (t : ProactiveTask) : ProactiveTask :=
  mkProactiveTask t.(id) t.(type) t.(title) t.(description) t.(scheduled_time)
    t.(recurring) t.(recurrence_interval) t.(priority) st t.(created_at)
    t.(started_at) t.(completed_at) t.(execution_time_ms) t.(result) t.(error)
    t.(target_file) t.(context).

(** [task.status = IN_PROGRESS; task.started_at = now] *)
Definition mark_started (now : datetime) (t : ProactiveTask) : ProactiveTask :=
  mkProactiveTask t.(id) t.(type) t.(title) t.(description) t.(scheduled_time)
    t.(recurring) t.(recurrence_interval) t.(priority) IN_PROGRESS t.(created_at)
    (Some now) t.(completed_at) t.(execution_time_ms) t.(result) t.(error)
    t.(target_file) t.(context).

(** A Python [float]: an IEEE 754 binary64 number. *)
Definition py_float := SpecFloat.spec_float.

Definition b64_mul : py_float -> py_float -> py_float := SpecFloat.SFmul 53 1024.

(** [float(n)]: [n] rounded to nearest, ties to even. *)
Definition float_of_int (n : Z) : py_float := SpecFloat.binary_normalize 53 1024 n 0 false.

(** [timedelta.total_seconds()] of a duration of [us] microseconds: the
    integer true division [us / 10**6], rounded once to nearest, ties to
    even ([SFdiv] rounds the exact quotient of its operands). *)
Definition total_seconds (us : Z) : py_float :=
  match us with
  | Z0 => SpecFloat.S754_zero false
  | Zpos p => SpecFloat.SFdiv 53 1024 (SpecFloat.S754_finite false p 0)
                (SpecFloat.S754_finite false 1000000 0)
  | Zneg p => SpecFloat.SFdiv 53 1024 (SpecFloat.S754_finite true p 0)
                (SpecFloat.S754_finite false 1000000 0)
  end.

(** [int(x)] of a float: truncation toward zero.  Infinities and NaN,
    where Python raises, do not arise from a [timedelta]. *)
Definition int_of_float (f : py_float) : Z :=
  match f with
  | SpecFloat.S754_finite sgn m e =>
      let a := Z.shiftl (Zpos m) e in if sgn then - a else a
  | _ => 0
  end.

(** [int((completed_at - started_at).total_seconds() * 1000)] *)
Definition elapsed_ms (started : option datetime) (done_at : datetime) : option Z :=
  match started with
  | Some s => Some (int_of_float (b64_mul (total_seconds (done_at - s)) (float_of_int 1000)))
  | None => None
  end.

(** The success block of [execute_task]. *)
Definition mark_completed (now : datetime) (r : string) (t : ProactiveTask)
  : ProactiveTask :=
  mkProactiveTask t.(id) t.(type) t.(title) t.(description) t.(scheduled_time)
    t.(recurring) t.(recurrence_interval) t.(priority) COMPLETED t.(created_at)
    t.(started_at) (Some now) (elapsed_ms t.(started_at) now) (Some r) t.(error)
    t.(target_file) t.(context).

(** The [except] block of [execute_task]. *)
Definition mark_failed (now : datetime) (msg : string) (t : ProactiveTask)
  : ProactiveTask :=
  mkProactiveTask t.(id) t.(type) t.(title) t.(description) t.(scheduled_time)
    t.(recurring) t.(recurrence_interval) t.(priority) FAILED t.(created_at)
    t.(started_at) (Some now) t.(execution_time_ms) t.(result) (Some msg)
    t.(target_file) t.(context).

(** [ProactiveTask.is_due]. *)
Definition is_due (now : datetime) (t : ProactiveTask) : bool :=
  match t.(status) with
  | PENDING | SCHEDULED =>
      match t.(scheduled_time) with
      | None => true
      | Some st => st <=? now
      end
  | _ => false
  end.

(** The fields of [TaskScheduler] the queue operations read and write. *)
Record TaskScheduler := mkTaskScheduler {
  _tasks : list ProactiveTask;
  _task_history : list ProactiveTask
}.

Definition _max_tasks_in_queue : nat := 100.
Definition _max_history_size : nat := 500.

(** [datetime.max] (9999-12-31 23:59:59.999999). *)
Definition datetime_max : datetime := 253402300799999999.

(** Truth value of an [Optional[timedelta]]: [None] and [timedelta(0)] are false. *)
Definition td_truthy (o : option timedelta) : bool :=
  match o with Some d => negb (d =? 0) | None => false end.

(** The sort key [(-t.priority, t.scheduled_time or datetime.max)]. *)
Definition sort_key (t : ProactiveTask) : Z * Z :=
  (- t.(priority),
   match t.(scheduled_time) with Some x => x | None => datetime_max end).

(** Python's tuple comparison [key(a) < key(b)]. *)
Definition key_lt (a b : ProactiveTask) : bool :=
  let (p1, d1) := sort_key a in
  let (p2, d2) := sort_key b in
  (p1 <? p2) || ((p1 =? p2) && (d1 <? d2)).

(** [list.sort(key=...)] is stable; stable insertion sort gives the same list. *)
Fixpoint insert_by_key (t : ProactiveTask) (l : list ProactiveTask) : list ProactiveTask :=
  match l with
  | [] => [t]
  | u :: us => if key_lt t u then t :: u :: us else u :: insert_by_key t us
  end.

Definition sort_by_key (l : list ProactiveTask) : list ProactiveTask :=
  fold_left (fun acc t => insert_by_key t acc) l [].

(** An [async def]: running the coroutine on the scheduler state.  A
    coroutine that is created and never awaited has no effect. *)
Definition Coro (A : Type) := TaskScheduler -> A * TaskScheduler.

(** [_cleanup_queue]. *)
Definition _cleanup_queue (tasks : list ProactiveTask) : list ProactiveTask :=
  filter (fun t => match t.(status) with
                   | PENDING | SCHEDULED | IN_PROGRESS => true
                   | _ => false
                   end) tasks.

(** [add_task]. *)
Definition add_task (task : ProactiveTask) : Coro string :=
  fun s =>
    if existsb (fun t => String.eqb t.(id) task.(id)) s.(_tasks) then (task.(id), s)
    else
      let tasks := if (_max_tasks_in_queue <=? List.length s.(_tasks))%nat
                   then _cleanup_queue s.(_tasks) else s.(_tasks) in
      (task.(id), mkTaskScheduler (sort_by_key (tasks ++ [task])) s.(_task_history)).

(** [get_next_task]. *)
Definition get_next_task (now : datetime) (s : TaskScheduler) : option ProactiveTask :=
  find (is_due now) s.(_tasks).

(** [has_due_tasks]. *)
Definition has_due_tasks (now : datetime) (s : TaskScheduler) : bool :=
  existsb (is_due now) s.(_tasks).

(** [_move_to_history]. *)
Definition _move_to_history (task : ProactiveTask) : Coro unit :=
  fun s =>
    let tasks := filter (fun t => negb (String.eqb t.(id) task.(id))) s.(_tasks) in
    let hist := task :: s.(_task_history) in
    let hist := if (_max_history_size <? List.length hist)%nat
                then py_slice_to hist _max_history_size else hist in
    (tt, mkTaskScheduler tasks hist).

(** [_reschedule_recurring_task]; [new_id] is [_generate_task_id()] and
    [now] the clock read of the block. *)
Definition _reschedule_recurring_task (task : ProactiveTask) (new_id : string)
  (now : datetime) : Coro unit :=
  fun s =>
    match task.(recurrence_interval) with
    | Some d =>
        if negb task.(recurring) || negb (td_truthy (Some d)) then (tt, s)
        else
          let new_task :=
            mkProactiveTask new_id task.(type) task.(title) task.(description)
              (Some (now + d)) true (Some d) task.(priority) PENDING now
              None None None None None task.(target_file) task.(context) in
          (tt, snd (add_task new_task s))
    | None => (tt, s)
    end.

(** What [_execute_task_by_type] does: return a result text or raise. *)
Inductive ExecOutcome := ExecOk (r : string) | ExecErr (msg : string).

(** The task object handed to [execute_task] is the one held in the queue:
    an assignment to it shows in the queue entry with its id. *)
Definition sync_task (task : ProactiveTask) (tasks : list ProactiveTask)
  : list ProactiveTask :=
  map (fun t => if String.eqb t.(id) task.(id) then task else t) tasks.

Definition with_task (task : ProactiveTask) (s : TaskScheduler) : TaskScheduler :=
  mkTaskScheduler (sync_task task s.(_tasks)) s.(_task_history).

(** [execute_task]: [t_start] is the clock read before the executor is
    called, [t_done] the one of the block after it returns or raises. *)
Definition execute_task (task : ProactiveTask) (outcome : ExecOutcome)
  (t_start t_done : datetime) (new_id : string) : Coro bool :=
  fun s =>
    let t1 := mark_started t_start task in
    let s1 := with_task t1 s in
    match outcome with
    | ExecOk r =>
        let t2 := mark_completed t_done r t1 in
        let s2 := with_task t2 s1 in
        let s3 := if t2.(recurring) && td_truthy t2.(recurrence_interval)
                  then snd (_reschedule_recurring_task t2 new_id t_done s2) else s2 in
        (true, snd (_move_to_history t2 s3))
    | ExecErr msg =>
        let t2 := mark_failed t_done msg t1 in
        let s2 := with_task t2 s1 in
        (false, snd (_move_to_history t2 s2))
    end.

(** The [for] loop of [cancel_task]: the first entry with the id that is
    [PENDING] or [SCHEDULED], marked [CANCELLED] in place. *)
Fixpoint cancel_first (task_id : string) (l : list ProactiveTask)
  : option (ProactiveTask * list ProactiveTask) :=
  match l with
  | [] => None
  | t :: ts =>
      if String.eqb t.(id) task_id
         && (TaskStatus_eqb t.(status) PENDING || TaskStatus_eqb t.(status) SCHEDULED)
      then Some (set_status CANCELLED t, set_status CANCELLED t :: ts)
      else match cancel_first task_id ts with
           | Some (c, ts') => Some (c, t :: ts')
           | None => None
           end
  end.

(** [cancel_task] (a plain [def]): [self._move_to_history(task)] is called
    without [await], so the coroutine is created and never run. *)
Definition cancel_task (task_id : string) (s : TaskScheduler) : bool * TaskScheduler :=
  match cancel_first task_id s.(_tasks) with
  | Some (task, tasks) =>
      let _not_awaited : Coro unit := _move_to_history task in
      (true, mkTaskScheduler tasks s.(_task_history))
  | None => (false, s)
  end.

(** [list_history(limit)]: [self._task_history[-limit:]] ([to_dict] of each
    entry left out). *)
Definition list_history (limit : Z) (s : TaskScheduler) : list ProactiveTask :=
  py_slice_from s.(_task_history) (- limit).

(** The queue order of the code: priority descending, then
    [scheduled_time or datetime.max] ascending. *)
Definition time_or_max (t : ProactiveTask) : Z := snd (sort_key t).

Definition queue_le (a b : ProactiveTask) : Prop :=
  a.(priority) > b.(priority)
  \/ (a.(priority) = b.(priority) /\ time_or_max a <= time_or_max b).

(** The queue ordering as the specification states it: priority
    descending, then [scheduled_time] ascending with a task without
    [scheduled_time] after every task of the same priority that has one. *)
Definition nulls_last_le (a b : option datetime) : Prop :=
  match a, b with
  | Some x, Some y => x <= y
  | None, Some _ => False
  | _, None => True
  end.

Definition claim_le (a b : ProactiveTask) : Prop :=
  a.(priority) > b.(priority)
  \/ (a.(priority) = b.(priority) /\ nulls_last_le a.(scheduled_time) b.(scheduled_time)).

Definition example_task (i : string) (p : Z) (st : option datetime) : ProactiveTask :=
  mkProactiveTask i HEALTH_CHECK "Health check" "" st false None p PENDING 0
    None None None None None None [].

(** A queue holding one pending task [t1]. *)
Definition queue_t1 : TaskScheduler :=
  mkTaskScheduler [example_task "t1" 5 None] [].


(** A finished task. *)
Definition done_task (i : string) : ProactiveTask :=
  set_status COMPLETED (example_task i 5 None).

(** Three tasks moved to history in the order [t1], [t2], [t3]. *)
Definition history_3 : TaskScheduler :=
  snd (_move_to_history (done_task "t3")
    (snd (_move_to_history (done_task "t2")
      (snd (_move_to_history (done_task "t1") (mkTaskScheduler [] [])))))).

(** A recurring daily task as [_schedule_daily_tasks] creates it. *)
Definition example_recurring : ProactiveTask :=
  mkProactiveTask "task_0000000a" SELF_REFLECTION "Self Reflection (10:00)"
    "Think about what I know, what I need to learn, and plan my next tasks"
    (Some 36000000000) true (Some 86400000000) 8 PENDING 0
    None None None None None None [].



(** [self._task_history.pop(i)] at the first [i] whose entry has the id. *)
Fixpoint pop_first_id (task_id : string) (l : list ProactiveTask)
  : option (list ProactiveTask) :=
  match l with
  | [] => None
  | t :: ts => if String.eqb t.(id) task_id then Some ts
               else option_map (cons t) (pop_first_id task_id ts)
  end.

(** [delete_from_history]; the database delete catches its own exceptions. *)
Definition delete_from_history (task_id : string) : Coro bool :=
  fun s =>
    match pop_first_id task_id s.(_task_history) with
    | Some h => (true, mkTaskScheduler s.(_tasks) h)
    | None => (false, s)
    end.

(** [reflection_hours], each with the title [f"Self Reflection ({hour}:00)"]. *)
Definition reflection_hours : list (Z * string) :=
  [(10, "Self Reflection (10:00)"%string); (14, "Self Reflection (14:00)"%string);
   (18, "Self Reflection (18:00)"%string); (22, "Self Reflection (22:00)"%string)].

(** The [for ... break] loop over [reflection_hours]: the first hour whose
    time today is after [now]. *)
Fixpoint first_reflection (now : datetime) (today : Z) (hours : list (Z * string))
  : option (Z * string) :=
  match hours with
  | [] => None
  | (h, ttl) :: rest =>
      if now <? combine today (h * hour_us) then Some (h, ttl)
      else first_reflection now today rest
  end.

(** [ProactiveTask(...)] as [_schedule_daily_tasks] builds it. *)
Definition daily_task (tid : string) (created : datetime) (ty : TaskType)
  (ttl descr : string) (when : datetime) (p : Z) (rec : bool)
  (iv : option timedelta) : ProactiveTask :=
  mkProactiveTask tid ty ttl descr (Some when) rec iv p PENDING created
    None None None None None None [].

(** The [k]-th task built gets [fresh k]: its [_generate_task_id()] and the
    [created_at] read of its default factory. *)
Definition IdSupply := nat -> string * datetime.

(** [await self.add_task(ProactiveTask(id=self._generate_task_id(), ...))]. *)
Definition add_fresh (fresh : IdSupply) (mk : string -> datetime -> ProactiveTask)
  (ks : nat * TaskScheduler) : nat * TaskScheduler :=
  let (k, s) := ks in
  let (tid, created) := fresh k in
  (S k, snd (add_task (mk tid created) s)).

(** [_schedule_daily_tasks]; [now] is its one clock read. *)
Definition _schedule_daily_tasks (now : datetime) (fresh : IdSupply)
  (ks : nat * TaskScheduler) : nat * TaskScheduler :=
  let today := Core.date_of now in
  let ks :=
    match first_reflection now today reflection_hours with
    | Some (h, ttl) =>
        add_fresh fresh (fun tid c => daily_task tid c SELF_REFLECTION ttl
          "Think about what I know, what I need to learn, and plan my next tasks"
          (combine today (h * hour_us)) 8 true (Some day_us)) ks
    | None => ks
    end in
  let morning := combine today (9 * hour_us + 30 * minute_us) in
  let ks :=
    if now <? morning then
      add_fresh fresh (fun tid c => daily_task tid c LEARN_FROM_HISTORY "Morning Review"
        "Review yesterday's activities and update profile with new insights"
        morning 7 true (Some day_us)) ks
    else ks in
  let evening := combine today (20 * hour_us + 30 * minute_us) in
  let ks :=
    if now <? evening then
      add_fresh fresh (fun tid c => daily_task tid c SUMMARIZE_PERIOD "Daily Summary"
        "Summarize today's activities and update relevant profile files"
        evening 7 true (Some day_us)) ks
    else ks in
  if weekday today =? 6 then
    let pattern_time := combine today (21 * hour_us) in
    if now <? pattern_time then
      add_fresh fresh (fun tid c => daily_task tid c DISCOVER_PATTERNS
        "Weekly Pattern Analysis"
        "Analyze this week's activities and discover behavioral patterns"
        pattern_time 6 false None) ks
    else ks
  else ks.

(** [t.scheduled_time and t.scheduled_time.date() == today]. *)
Definition scheduled_on (today : Z) (t : ProactiveTask) : bool :=
  match t.(scheduled_time) with
  | Some st => Core.date_of st =? today
  | None => false
  end.

(** [ensure_daily_tasks]; its clock read and the one of
    [_schedule_daily_tasks] fall in one synchronous block. *)
Definition ensure_daily_tasks (now : datetime) (fresh : IdSupply)
  (ks : nat * TaskScheduler) : nat * TaskScheduler :=
  if existsb (scheduled_on (Core.date_of now)) (snd ks).(_tasks) then ks
  else _schedule_daily_tasks now fresh ks.


(** The tasks a run of [_schedule_daily_tasks] may have added: each one is
    scheduled after [now] on the date of [now]. *)
Definition added_today (now : datetime) (s0 : TaskScheduler) (ks : nat * TaskScheduler)
  : Prop :=
  forall u, In u (_tasks (snd ks)) -> In u s0.(_tasks)
    \/ exists x, u.(scheduled_time) = Some x /\ now < x
                 /\ Core.date_of x = Core.date_of now.

(** A step of [_schedule_daily_tasks]: an [if] around one [add_task]. *)
Definition daily_step_ok (now : datetime) (s0 : TaskScheduler) (k0 : nat)
  (n : nat) (ks : nat * TaskScheduler) : Prop :=
  added_today now s0 ks /\ (k0 <= fst ks <= k0 + n)%nat
  /\ _task_history (snd ks) = s0.(_task_history).

(** An id supply for examples: the [k]-th task built gets ["task_k"] for
    [k < 10] and is created at time 0. *)
Definition fixed_ids (k : nat) : string * datetime :=
  (("task_" ++ String (Ascii.ascii_of_nat (48 + k)) EmptyString)%string, 0).

End Scheduler.

(* ------------------------------------------------------------------ *)
(** ** wakeup.py *)

Module Wakeup.

Inductive WakeupTriggerType :=
| SCHEDULED | PERIODIC | TASK_DUE | NEW_DATA | USER_REQUEST | SYSTEM.

(** [WakeupTrigger] ([metadata] left out: nothing reads it). *)
Record WakeupTrigger := mkWakeupTrigger {
  id : string;
  type : WakeupTriggerType;
  name : string;
  enabled : bool;
  scheduled_time : option datetime;
  interval : option timedelta;
  last_triggered : option datetime;
  condition : option string;
  priority : Z;
  reason : string
}.

(** [WakeupTrigger.is_due]. *)
Definition is_due (now : datetime) (t : WakeupTrigger) : bool :=
  if negb t.(enabled) then false
  else
    match t.(type) with
    | SCHEDULED =>
        match t.(scheduled_time) with
        | Some st =>
            if st <=? now then
              match t.(last_triggered) with
              | Some lt => if st <=? lt then false else true
              | None => true
              end
            else false
        | None => false
        end
    | PERIODIC =>
        match t.(interval) with
        | Some iv =>
            if negb (iv =? 0) then
              match t.(last_triggered) with
              | None => true
              | Some lt => if iv <=? now - lt then true else false
              end
            else false
        | None => false
        end
    | _ => false
    end.

(** The assignments of [check_triggers] to the fired trigger object. *)
Definition fire (now : datetime) (t : WakeupTrigger) : WakeupTrigger :=
  mkWakeupTrigger t.(id) t.(type) t.(name)
    (match t.(type) with SCHEDULED => false | _ => t.(enabled) end)
    t.(scheduled_time) t.(interval) (Some now) t.(condition)
    t.(priority) t.(reason).

(** The due triggers with their positions in [self._triggers]. *)
Fixpoint due_with_index (now : datetime) (i : nat) (ts : list WakeupTrigger)
  : list (nat * WakeupTrigger) :=
  match ts with
  | [] => []
  | t :: rest =>
      if is_due now t then (i, t) :: due_with_index now (S i) rest
      else due_with_index now (S i) rest
  end.

(** [due_triggers.sort(key=priority, reverse=True)[0]]: the stable sort in
    reverse keeps list order among equal priorities, so the head is the
    first trigger of highest priority. *)
Fixpoint first_highest (best : nat * WakeupTrigger) (l : list (nat * WakeupTrigger))
  : nat * WakeupTrigger :=
  match l with
  | [] => best
  | c :: rest =>
      if (snd best).(priority) <? (snd c).(priority)
      then first_highest c rest else first_highest best rest
  end.

(** Writing the list entry at position [i] (the object the assignments of
    [check_triggers] write to). *)
Fixpoint set_nth {A} (i : nat) (x : A) (l : list A) : list A :=
  match l, i with
  | [], _ => []
  | _ :: rest, O => x :: rest
  | y :: rest, S k => y :: set_nth k x rest
  end.

(** [check_triggers]: the fired trigger (with its position, which is the
    object's identity in the list) and the updated trigger list. *)
Definition check_triggers (now : datetime) (ts : list WakeupTrigger)
  : option (nat * WakeupTrigger) * list WakeupTrigger :=
  match due_with_index now 0 ts with
  | [] => (None, ts)
  | c :: rest =>
      let (i, t) := first_highest c rest in
      let t' := fire now t in
      (Some (i, t'), set_nth i t' ts)
  end.

(** A run of [check_triggers] calls at the clock reads [nows]: the
    position of the trigger each call returns. *)
Fixpoint run_checks (nows : list datetime) (ts : list WakeupTrigger) : list (option nat) :=
  match nows with
  | [] => []
  | n :: rest =>
      let (r, ts') := check_triggers n ts in
      option_map fst r :: run_checks rest ts'
  end.

(** A one-shot trigger as [_setup_default_triggers] creates it. *)
Definition example_scheduled : WakeupTrigger :=
  mkWakeupTrigger "trigger_1" SCHEDULED "Morning Wakeup" true (Some 5) None None None
    7 "Daily morning routine".

(** [WakeupSchedule]; [schedule_enabled] is its [enabled] field. *)
Record WakeupSchedule := mkWakeupSchedule {
  schedule_enabled : bool;
  morning_wakeup : timedelta;
  evening_wakeup : timedelta;
  active_days : list Z
}.

Definition default_schedule : WakeupSchedule :=
  mkWakeupSchedule true (9 * hour_us) (20 * hour_us) [0; 1; 2; 3; 4; 5; 6].

(** [day.weekday() in self.active_days]. *)
Definition is_active_day (sch : WakeupSchedule) (d : Z) : bool :=
  existsb (Z.eqb (weekday d)) sch.(active_days).

(** [WakeupSchedule.get_next_wakeup]; [now] is its clock read. *)
Definition get_next_wakeup (sch : WakeupSchedule) (now : datetime) : option datetime :=
  let today := Core.date_of now in
  let morning := combine today sch.(morning_wakeup) in
  let evening := combine today sch.(evening_wakeup) in
  if (now <? morning) && is_active_day sch today then Some morning
  else if (now <? evening) && is_active_day sch today then Some evening
  else
    match find (fun k => is_active_day sch (today + k)) [1; 2; 3; 4; 5; 6; 7] with
    | Some k => Some (combine (today + k) sch.(morning_wakeup))
    | None => None
    end.

Definition _min_sleep_duration : timedelta := 5 * minute_us.
Definition _max_sleep_duration : timedelta := 24 * hour_us.

(** [calculate_sleep_duration]; its two clock reads fall in one block. *)
Definition calculate_sleep_duration (sch : WakeupSchedule) (now : datetime) : timedelta :=
  match get_next_wakeup sch now with
  | Some next_wakeup =>
      let sleep_duration := next_wakeup - now - 5 * minute_us in
      if sleep_duration <? _min_sleep_duration then _min_sleep_duration
      else if _max_sleep_duration <? sleep_duration then _max_sleep_duration
      else sleep_duration
  | None => hour_us
  end.

(** [f"{n}"] of a non-negative integer: its decimal digits. *)
Fixpoint uint_to_string (d : Decimal.uint) : string :=
  match d with
  | Decimal.Nil => EmptyString
  | Decimal.D0 r => ("0" ++ uint_to_string r)%string
  | Decimal.D1 r => ("1" ++ uint_to_string r)%string
  | Decimal.D2 r => ("2" ++ uint_to_string r)%string
  | Decimal.D3 r => ("3" ++ uint_to_string r)%string
  | Decimal.D4 r => ("4" ++ uint_to_string r)%string
  | Decimal.D5 r => ("5" ++ uint_to_string r)%string
  | Decimal.D6 r => ("6" ++ uint_to_string r)%string
  | Decimal.D7 r => ("7" ++ uint_to_string r)%string
  | Decimal.D8 r => ("8" ++ uint_to_string r)%string
  | Decimal.D9 r => ("9" ++ uint_to_string r)%string
  end.

Definition str_of_nat (n : nat) : string := uint_to_string (Nat.to_uint n).

(** The fields of [WakeupManager] the trigger operations read and write. *)
Record WakeupManager := mkWakeupManager {
  _triggers : list WakeupTrigger;
  _trigger_id_counter : nat
}.

(** [WakeupManager.__init__]. *)
Definition init_manager : WakeupManager := mkWakeupManager [] 0.

(** [_next_trigger_id]. *)
Definition _next_trigger_id (m : WakeupManager) : string * WakeupManager :=
  let n := S m.(_trigger_id_counter) in
  (("trigger_" ++ str_of_nat n)%string, mkWakeupManager m.(_triggers) n).

(** [add_trigger]. *)
Definition add_trigger (t : WakeupTrigger) (m : WakeupManager) : string * WakeupManager :=
  (t.(id), mkWakeupManager (m.(_triggers) ++ [t]) m.(_trigger_id_counter)).

(** [self.add_trigger(WakeupTrigger(id=self._next_trigger_id(), ...))]. *)
Definition add_new_trigger (mk : string -> WakeupTrigger) (m : WakeupManager)
  : string * WakeupManager :=
  let (tid, m1) := _next_trigger_id m in add_trigger (mk tid) m1.

(** [self._triggers.pop(i)] at the first [i] whose trigger has the id. *)
Fixpoint pop_first_trigger (trigger_id : string) (l : list WakeupTrigger)
  : option (list WakeupTrigger) :=
  match l with
  | [] => None
  | t :: ts => if String.eqb t.(id) trigger_id then Some ts
               else option_map (cons t) (pop_first_trigger trigger_id ts)
  end.

(** [remove_trigger]. *)
Definition remove_trigger (trigger_id : string) (m : WakeupManager) : bool * WakeupManager :=
  match pop_first_trigger trigger_id m.(_triggers) with
  | Some ts => (true, mkWakeupManager ts m.(_trigger_id_counter))
  | None => (false, m)
  end.

(** [get_trigger]. *)
Definition get_trigger (trigger_id : string) (m : WakeupManager) : option WakeupTrigger :=
  find (fun t => String.eqb t.(id) trigger_id) m.(_triggers).

(** [schedule_wakeup(when, reason, priority)]. *)
Definition schedule_wakeup (when : datetime) (why : string) (p : Z) (m : WakeupManager)
  : string * WakeupManager :=
  add_new_trigger (fun tid => mkWakeupTrigger tid SCHEDULED ("Scheduled: " ++ why)
                                true (Some when) None None None p why) m.

(** The [create_trigger] route: a trigger of any type, with its id from
    [_next_trigger_id], given to [add_trigger]. *)
Definition create_trigger (ty : WakeupTriggerType) (nm : string) (st : option datetime)
  (iv : option timedelta) (p : Z) (why : string) (m : WakeupManager)
  : string * WakeupManager :=
  add_new_trigger (fun tid => mkWakeupTrigger tid ty nm true st iv None None p why) m.

(** [check_triggers] on the manager. *)
Definition check_manager (now : datetime) (m : WakeupManager)
  : option WakeupTrigger * WakeupManager :=
  let (r, ts) := check_triggers now m.(_triggers) in
  (option_map snd r, mkWakeupManager ts m.(_trigger_id_counter)).

(** [_setup_default_triggers]; [now] is the clock read of the block. *)
Definition _setup_default_triggers (sch : WakeupSchedule) (now : datetime)
  (m : WakeupManager) : WakeupManager :=
  let morning_time := combine (Core.date_of now) sch.(morning_wakeup) in
  let morning_time := if morning_time <? now then morning_time + day_us else morning_time in
  let m := snd (add_new_trigger (fun tid => mkWakeupTrigger tid SCHEDULED "Morning Wakeup"
                  true (Some morning_time) None None None 7 "Daily morning routine") m) in
  let evening_time := combine (Core.date_of now) sch.(evening_wakeup) in
  let evening_time := if evening_time <? now then evening_time + day_us else evening_time in
  let m := snd (add_new_trigger (fun tid => mkWakeupTrigger tid SCHEDULED "Evening Wakeup"
                  true (Some evening_time) None None None 7 "Daily evening review") m) in
  snd (add_new_trigger (fun tid => mkWakeupTrigger tid PERIODIC "Periodic Health Check"
         true None (Some (2 * hour_us)) None None 3 "Regular system health check") m).

(** The calls that change the trigger list or the id counter. *)
Inductive ManagerOp :=
| MSchedule (when : datetime) (why : string) (p : Z)
| MCreate (ty : WakeupTriggerType) (nm : string) (st : option datetime)
    (iv : option timedelta) (p : Z) (why : string)
| MRemove (trigger_id : string)
| MCheck (now : datetime)
| MNextId  (* an id drawn and never registered, as in [request_immediate_wakeup] *).

Definition run_mop (op : ManagerOp) (m : WakeupManager) : WakeupManager :=
  match op with
  | MSchedule when why p => snd (schedule_wakeup when why p m)
  | MCreate ty nm st iv p why => snd (create_trigger ty nm st iv p why m)
  | MRemove tid => snd (remove_trigger tid m)
  | MCheck now => snd (check_manager now m)
  | MNextId => snd (_next_trigger_id m)
  end.

Definition run_mops (ops : list ManagerOp) (m : WakeupManager) : WakeupManager :=
  fold_left (fun acc op => run_mop op acc) ops m.

(** The id discipline of the manager: ids are unique, and each one is
    ["trigger_j"] for a [j] the counter has already reached. *)
Definition ids_ok (m : WakeupManager) : Prop :=
  NoDup (map id m.(_triggers))
  /\ forall t, In t m.(_triggers) ->
       exists j, (1 <= j <= m.(_trigger_id_counter))%nat
                 /\ t.(id) = ("trigger_" ++ str_of_nat j)%string.

(** A periodic trigger as [_setup_default_triggers] creates it. *)
Definition example_periodic : WakeupTrigger :=
  mkWakeupTrigger "trigger_3" PERIODIC "Periodic Health Check" true None
    (Some (2 * hour_us)) None None 3 "Regular system health check".

End Wakeup.

(* ------------------------------------------------------------------ *)
(** ** The agent: core, task scheduler and wakeup manager together *)

Module Agent.

(** The singletons one [ProactiveCore] works with, and the position [k] in
    the supply of fresh task ids. *)
Record Agent := mkAgent {
  core : Core.ProactiveCore;
  sched : Scheduler.TaskScheduler;
  wakeup : Wakeup.WakeupManager;
  next_fresh : nat
}.

Definition set_core (c : Core.ProactiveCore) (a : Agent) : Agent :=
  mkAgent c a.(sched) a.(wakeup) a.(next_fresh).

(** [self._context.tasks_completed_today += 1]. *)
Definition bump_completed (c : Core.ProactiveCore) : Core.ProactiveCore :=
  Core.mkProactiveCore c.(Core._state) c.(Core._transitions)
    (Core.ctx_set_tasks_completed_today (c.(Core._context).(Core.tasks_completed_today) + 1)
       c.(Core._context)).

(** [ProactiveCore._execute_task(task)]: [t0] and [t3] are the clock reads
    of the two transitions, [t_start], [t_done] and [new_id] those of
    [TaskScheduler.execute_task], which does not raise. *)
Definition _execute_task (task : Scheduler.ProactiveTask) (outcome : Scheduler.ExecOutcome)
  (t0 t_start t_done t3 : datetime) (new_id : string) (a : Agent) : Outcome unit * Agent :=
  match Core._transition_to Core.WORKING
          ("Executing task: " ++ task.(Scheduler.title))%string t0 a.(core) with
  | (Raise e, c1) => (Raise e, set_core c1 a)
  | (Return _, c1) =>
      let s1 := snd (Scheduler.execute_task task outcome t_start t_done new_id a.(sched)) in
      let c2 := bump_completed c1 in
      let a2 := mkAgent c2 s1 a.(wakeup) a.(next_fresh) in
      match c2.(Core._state) with
      | Core.WORKING =>
          let (o, c3) := Core._transition_to Core.AWAKE "Task completed" t3 c2 in
          (o, set_core c3 a2)
      | _ => (Return tt, a2)
      end
  end.

(** [ProactiveCore.wake_up(reason)] with the [ensure_daily_tasks] call of
    [_on_wakeup] on the scheduler; [t2] is the clock read of [_on_wakeup]
    and of [ensure_daily_tasks]. *)
Definition wake_up (why : string) (profile : option (option datetime))
  (t1 t2 t3 : datetime) (fresh : Scheduler.IdSupply) (a : Agent) : Outcome bool * Agent :=
  match a.(core).(Core._state) with
  | Core.SLEEPING | Core.GOING_TO_SLEEP =>
      match Core._transition_to Core.WAKING_UP why t1 a.(core) with
      | (Raise e, c1) => (Raise e, set_core c1 a)
      | (Return _, c1) =>
          let c2 := snd (Core._on_wakeup profile t2 c1) in
          let (k, s) := Scheduler.ensure_daily_tasks t2 fresh (a.(next_fresh), a.(sched)) in
          match Core._transition_to Core.AWAKE "Initialization complete" t3 c2 with
          | (Raise e, c3) => (Raise e, mkAgent c3 s a.(wakeup) k)
          | (Return _, c3) => (Return true, mkAgent c3 s a.(wakeup) k)
          end
      end
  | _ => (Return false, a)
  end.

(** [WakeupManager.request_immediate_wakeup(reason)] for a manager whose
    [_core] is set: [t0] is the clock read of the trigger it builds. *)
Definition request_immediate_wakeup (why : string) (profile : option (option datetime))
  (t0 t1 t2 t3 : datetime) (fresh : Scheduler.IdSupply) (a : Agent) : Outcome bool * Agent :=
  if Core.is_sleeping a.(core) then
    let (tid, m1) := Wakeup._next_trigger_id a.(wakeup) in
    let _trigger := Wakeup.mkWakeupTrigger tid Wakeup.USER_REQUEST "Immediate Wakeup" true
                      (Some t0) None (Some t0) None 10 why in
    wake_up why profile t1 t2 t3 fresh (mkAgent a.(core) a.(sched) m1 a.(next_fresh))
  else (Return false, a).

(** The clock reads and outside results one pass of [_main_loop] uses. *)
Record LoopInputs := mkLoopInputs {
  in_now : datetime;
  in_profile : option (option datetime);
  in_wake : datetime * datetime * datetime;
  in_outcome : Scheduler.ExecOutcome;
  in_exec : datetime * datetime * datetime * datetime;
  in_new_id : string;
  in_sleep : datetime * datetime
}.

(** One pass of the [while self._running] loop of [_main_loop]; an
    exception is caught by the loop, which goes on from the state left.
    [in_now] is the clock read of [check_triggers], [has_due_tasks],
    [get_next_task] and [_should_sleep], which run without suspending. *)
Definition main_loop_step (fresh : Scheduler.IdSupply) (i : LoopInputs) (a : Agent) : Agent :=
  let '(w1, w2, w3) := i.(in_wake) in
  match a.(core).(Core._state) with
  | Core.SLEEPING =>
      let (r, m) := Wakeup.check_manager i.(in_now) a.(wakeup) in
      let a1 := mkAgent a.(core) a.(sched) m a.(next_fresh) in
      match r with
      | Some trigger => snd (wake_up trigger.(Wakeup.reason) i.(in_profile) w1 w2 w3 fresh a1)
      | None =>
          if Scheduler.has_due_tasks i.(in_now) a1.(sched)
          then snd (wake_up "Due tasks in queue" i.(in_profile) w1 w2 w3 fresh a1)
          else a1
      end
  | Core.AWAKE =>
      match Scheduler.get_next_task i.(in_now) a.(sched) with
      | Some task =>
          let '(e0, e1, e2, e3) := i.(in_exec) in
          snd (_execute_task task i.(in_outcome) e0 e1 e2 e3 i.(in_new_id) a)
      | None =>
          match Core._should_sleep i.(in_now) a.(core) with
          | (Return true, _) =>
              let (s1, s2) := i.(in_sleep) in
              set_core (snd (Core.go_to_sleep "No pending tasks" s1 s2 a.(core))) a
          | _ => a
          end
      end
  | _ => a
  end.

(** Successive passes of [_main_loop]. *)
Fixpoint run_loop (fresh : Scheduler.IdSupply) (is : list LoopInputs) (a : Agent) : Agent :=
  match is with
  | [] => a
  | i :: rest => run_loop fresh rest (main_loop_step fresh i a)
  end.

(** The states [_main_loop] rests in between passes. *)
Definition loop_state_ok (a : Agent) : bool :=
  match a.(core).(Core._state) with
  | Core.SLEEPING | Core.AWAKE => true
  | _ => false
  end.

(** A freshly started agent: sleeping, an empty queue, and the default
    triggers set up at time 0. *)
Definition init_agent : Agent :=
  mkAgent Core.init_core (Scheduler.mkTaskScheduler [] [])
    (Wakeup._setup_default_triggers Wakeup.default_schedule 0 Wakeup.init_manager) 0.

(** A sleeping agent with no triggers and an empty queue. *)
Definition idle_agent : Agent :=
  mkAgent Core.init_core (Scheduler.mkTaskScheduler [] []) Wakeup.init_manager 0.

(** An awake agent whose queue holds the task [t1]. *)
Definition awake_agent : Agent :=
  mkAgent (snd (Core.wake_up "Manual wakeup" None 1 2 3 Core.init_core))
    Scheduler.queue_t1 Wakeup.init_manager 0.

(** An awake agent, awake since time 3, with an empty queue. *)
Definition awake_idle_agent : Agent :=
  mkAgent (core awake_agent) (Scheduler.mkTaskScheduler [] []) Wakeup.init_manager 0.

(** Loop inputs whose clock reads are all [now]. *)
Definition example_inputs (now : datetime) : LoopInputs :=
  mkLoopInputs now None (now, now, now) (Scheduler.ExecOk "done") (now, now, now, now)
    "task_new" (now, now).

End Agent.

(* ================================================================== *)
(** * Properties of the lifecycle state machine *)

Module CoreProofs.
Import Core.

Lemma AgentState_eqb_eq a b : AgentState_eqb a b = true <-> a = b.
Proof. destruct a, b; simpl; split; congruence. Qed.

(** The code's table and the table of the specification agree. *)
Lemma is_valid_transition_spec (a b : AgentState) :
  _is_valid_transition a b = true <-> In (a, b) spec_table.
Proof.
  unfold _is_valid_transition, spec_table.
  destruct a, b; simpl; split; intros H; try reflexivity; try discriminate;
    intuition congruence.
Qed.

Lemma keep_last_100_length (ts : list StateTransition) :
  (List.length (keep_last_100 ts) <= Nat.min 100 (List.length ts))%nat.
Proof.
  unfold keep_last_100, py_slice_from.
  destruct (100 <? Z.of_nat (List.length ts)) eqn:E.
  - apply Z.ltb_lt in E. cbv zeta.
    rewrite (proj2 (Z.ltb_lt (-100) 0)) by lia.
    rewrite length_skipn. lia.
  - apply Z.ltb_ge in E. lia.
Qed.

(** The sibling path [_transition_to] keeps the log within 100 entries. *)
Lemma transition_to_log_bound (new_state : AgentState) (why : string)
  (now : datetime) (c : ProactiveCore) :
  (List.length (_transitions (snd (_transition_to new_state why now c))) <= 100)%nat
  \/ snd (_transition_to new_state why now c) = c.
Proof.
  unfold _transition_to.
  destruct (negb (_is_valid_transition (_state c) new_state)); [right; reflexivity|].
  left; simpl. pose proof (keep_last_100_length (_transitions c ++
    [mkStateTransition (_state c) new_state now why])). lia.
Qed.

(** The part of [wake_up]'s contract that the code meets: a denied call
    returns [false] without any change, and a call from [SLEEPING] ends in
    [AWAKE], returning [true]. *)
Lemma wake_up_from_sleeping (why : string) (p : option (option datetime))
  (t1 t2 t3 : datetime) (c : ProactiveCore) :
  (c.(_state) <> SLEEPING -> c.(_state) <> GOING_TO_SLEEP ->
   wake_up why p t1 t2 t3 c = (Return false, c)) /\
  (c.(_state) = SLEEPING ->
   exists c', wake_up why p t1 t2 t3 c = (Return true, c') /\ c'.(_state) = AWAKE).
Proof.
  destruct c as [s ts ctx]; simpl. split.
  - intros H1 H2. unfold wake_up, bind, get_state; simpl.
    destruct s; try congruence; reflexivity.
  - intros ->. eexists. split; [reflexivity | reflexivity].
Qed.

(** ** C1
    A requested transition outside the table of the specification raises
    the invalid-transition [ValueError] and leaves the whole core (state,
    log and context timestamps) as it was; a transition of the table
    succeeds, moves to the requested state and appends exactly one record
    [(from, to, now, reason)] to the log (which is then cut to its last
    100 entries). *)
Theorem transition_to_table (c : ProactiveCore) (to : AgentState) (why : string)
  (now : datetime) :
  (~ In (c.(_state), to) spec_table ->
   _transition_to to why now c
   = (Raise (ValueError (invalid_transition_msg c.(_state) to)), c)) /\
  (In (c.(_state), to) spec_table ->
   exists c', _transition_to to why now c = (Return tt, c') /\
     c'.(_state) = to /\
     c'.(_transitions)
       = keep_last_100 (c.(_transitions) ++ [mkStateTransition c.(_state) to now why])).
Proof.
  split; intros H; unfold _transition_to.
  - destruct (_is_valid_transition (_state c) to) eqn:E.
    + apply is_valid_transition_spec in E. contradiction.
    + reflexivity.
  - apply is_valid_transition_spec in H. rewrite H. simpl.
    eexists. split; [reflexivity | split; reflexivity].
Qed.

Lemma transition_to_table_witness :
  ~ In (SLEEPING, AWAKE) spec_table
  /\ _transition_to AWAKE "Initialization complete" 1 init_core
     = (Raise (ValueError (invalid_transition_msg SLEEPING AWAKE)), init_core).
Proof.
  assert (H : ~ In (SLEEPING, AWAKE) spec_table) by (simpl; intuition discriminate).
  split; [exact H|].
  exact (proj1 (transition_to_table init_core AWAKE "Initialization complete" 1) H).
Defined.

(** ** C2
    [wake_up] from [GOING_TO_SLEEP] passes its guard but then raises: the
    table has no entry [GOING_TO_SLEEP -> WAKING_UP]; the core is left as
    it was and [AWAKE] is never reached. *)
Theorem wake_up_going_to_sleep_raises :
  wake_up "Manual wakeup" None 1 2 3 core_going_to_sleep
  = (Raise (ValueError
       "Invalid state transition: AgentState.GOING_TO_SLEEP -> AgentState.WAKING_UP"),
     core_going_to_sleep).
Proof. reflexivity. Qed.

(** ** C3 (counterexample)
    [go_to_sleep] on a sleeping core returns [true], not [false]. *)
Lemma go_to_sleep_sleeping_returns_true :
  go_to_sleep "Idle timeout" 0 0 init_core = (Return true, init_core)
  /\ fst (go_to_sleep "Idle timeout" 0 0 init_core) <> Return false.
Proof. split; [reflexivity | discriminate]. Qed.

(** ** C3 (amended)
    [go_to_sleep] never raises and changes nothing when the core is
    [SLEEPING] or [WORKING]; it returns [true] when already [SLEEPING] and
    [false] when [WORKING]. *)
Theorem go_to_sleep_sleeping_or_working (why : string) (t1 t2 : datetime)
  (c : ProactiveCore) :
  (c.(_state) = SLEEPING -> go_to_sleep why t1 t2 c = (Return true, c)) /\
  (c.(_state) = WORKING -> go_to_sleep why t1 t2 c = (Return false, c)).
Proof.
  unfold go_to_sleep, bind, get_state.
  split; intros ->; reflexivity.
Qed.

Lemma go_to_sleep_sleeping_or_working_witness :
  _state init_core = SLEEPING
  /\ go_to_sleep "Idle timeout" 0 0 init_core = (Return true, init_core).
Proof.
  split; [reflexivity|].
  exact (proj1 (go_to_sleep_sleeping_or_working "Idle timeout" 0 0 init_core) eq_refl).
Defined.

(** ** C8
    After the run [ops_101] from a fresh core the transition log holds
    101 entries: [force_state] appends without cutting the log to 100. *)
Theorem force_state_log_exceeds_100 :
  List.length (_transitions (last (run_ops ops_101 init_core) init_core)) = 101%nat
  /\ List.length (_transitions (last (run_ops (removelast ops_101) init_core) init_core))
     = 100%nat.
Proof. split; vm_compute; reflexivity. Qed.

(* ------------------------------------------------------------------ *)
(** ** Further properties of the core *)

Lemma kept_ret (P : ProactiveCore -> Prop) {A} (a : A) : kept P (ret a).
Proof. intros c H. exact H. Qed.

Lemma kept_get_state (P : ProactiveCore -> Prop) : kept P get_state.
Proof. intros c H. exact H. Qed.

Lemma kept_bind (P : ProactiveCore -> Prop) {A B} (m : M A) (k : A -> M B) :
  kept P m -> (forall a, kept P (k a)) -> kept P (bind m k).
Proof.
  intros Hm Hk c H. unfold bind.
  pose proof (Hm c H) as H'. destruct (m c) as [[a|e] c']; [apply Hk|]; exact H'.
Qed.

Lemma kept_transition_to (P : ProactiveCore -> Prop) (s : AgentState) (why : string)
  (now : datetime) :
  (forall c, _is_valid_transition c.(_state) s = true -> P c ->
     P (snd (_transition_to s why now c))) ->
  kept P (_transition_to s why now).
Proof.
  intros H c Hc. destruct (_is_valid_transition (_state c) s) eqn:E.
  - apply H; assumption.
  - unfold _transition_to. rewrite E. exact Hc.
Qed.

Lemma kept_on_wakeup (P : ProactiveCore -> Prop) (p : option (option datetime))
  (now : datetime) :
  (forall c, P c -> P (snd (_on_wakeup p now c))) -> kept P (_on_wakeup p now).
Proof. intros H. exact H. Qed.

Ltac kept_steps :=
  repeat first [ apply kept_bind; [| intros ?] | apply kept_ret | apply kept_get_state ].

Lemma transition_to_mirrored (s : AgentState) (why : string) (now : datetime) :
  kept mirrored (_transition_to s why now).
Proof.
  apply kept_transition_to. intros c Hv _. unfold _transition_to, mirrored.
  rewrite Hv. destruct s; reflexivity.
Qed.

Lemma on_wakeup_mirrored (p : option (option datetime)) (now : datetime) :
  kept mirrored (_on_wakeup p now).
Proof.
  intros [s ts ctx] H. unfold mirrored in *; simpl in *.
  destruct p as [lu|]; simpl;
    destruct (last_wakeup _) as [lw|]; try destruct (date_of lw <? date_of now);
    exact H.
Qed.

Lemma run_op_mirrored (op : CoreOp) : kept mirrored (run_op op).
Proof.
  destruct op as [s why now | s why now | why p t1 t2 t3 | why t1 t2]; simpl.
  - apply transition_to_mirrored.
  - intros c _. reflexivity.
  - unfold wake_up. kept_steps.
    destruct a; kept_steps; try apply transition_to_mirrored; apply on_wakeup_mirrored.
  - unfold go_to_sleep. kept_steps.
    destruct a; kept_steps; try apply transition_to_mirrored; intros c H; exact H.
Qed.

Lemma run_ops_kept (P : ProactiveCore -> Prop) (ops : list CoreOp) (c : ProactiveCore) :
  (forall op, In op ops -> kept P (run_op op)) -> P c -> Forall P (run_ops ops c).
Proof.
  revert c. induction ops as [|op rest IH]; intros c Hops Hc; simpl; [constructor|].
  assert (H1 : P (snd (run_op op c))) by (apply Hops; [left; reflexivity | exact Hc]).
  constructor; [exact H1|]. apply IH; [intros o Ho; apply Hops; right; exact Ho | exact H1].
Qed.

Lemma transition_to_log_bounded (s : AgentState) (why : string) (now : datetime) :
  kept log_bounded (_transition_to s why now).
Proof.
  intros c H. destruct (transition_to_log_bound s why now c) as [H' | ->]; assumption.
Qed.

Lemma on_wakeup_log_bounded (p : option (option datetime)) (now : datetime) :
  kept log_bounded (_on_wakeup p now).
Proof. intros c H. exact H. Qed.

Lemma transition_to_no_next_task (s : AgentState) (why : string) (now : datetime) :
  kept no_next_task (_transition_to s why now).
Proof.
  apply kept_transition_to. intros c Hv H. unfold _transition_to, no_next_task in *.
  rewrite Hv. destruct s; exact H.
Qed.

Lemma on_wakeup_no_next_task (p : option (option datetime)) (now : datetime) :
  kept no_next_task (_on_wakeup p now).
Proof.
  intros [s ts ctx] H. unfold no_next_task in *; simpl in *.
  destruct p as [lu|]; simpl;
    destruct (last_wakeup _) as [lw|]; try destruct (date_of lw <? date_of now);
    exact H.
Qed.

Lemma run_op_no_next_task (op : CoreOp) : kept no_next_task (run_op op).
Proof.
  destruct op as [s why now | s why now | why p t1 t2 t3 | why t1 t2]; simpl.
  - apply transition_to_no_next_task.
  - intros c H. exact H.
  - unfold wake_up. kept_steps.
    destruct a; kept_steps; try apply transition_to_no_next_task; apply on_wakeup_no_next_task.
  - unfold go_to_sleep. kept_steps.
    destruct a; kept_steps; try apply transition_to_no_next_task; intros c H; exact H.
Qed.

(** [go_to_sleep] by starting state: from [SLEEPING] and [WORKING] it
    changes nothing (returning [true] and [false]); from [AWAKE] it ends in
    [SLEEPING], returns [true] and stamps [last_sleep] with the clock read
    of the second transition; from [WAKING_UP] and [GOING_TO_SLEEP] its
    first step [_transition_to(GOING_TO_SLEEP)] is outside the table, so it
    raises [ValueError] and changes nothing. *)
Theorem go_to_sleep_by_state (why : string) (t1 t2 : datetime) (c : ProactiveCore) :
  match c.(_state) with
  | SLEEPING => go_to_sleep why t1 t2 c = (Return true, c)
  | WORKING => go_to_sleep why t1 t2 c = (Return false, c)
  | AWAKE =>
      exists c', go_to_sleep why t1 t2 c = (Return true, c')
                 /\ c'.(_state) = SLEEPING /\ c'.(_context).(last_sleep) = Some t2
  | s => go_to_sleep why t1 t2 c
         = (Raise (ValueError (invalid_transition_msg s GOING_TO_SLEEP)), c)
  end.
Proof.
  destruct c as [s ts ctx]. destruct s; simpl; try reflexivity.
  eexists. split; [reflexivity|]. split; reflexivity.
Qed.

(** The state part of [stop]: a sleeping core is left as it is; from
    [AWAKE], [WAKING_UP] or [GOING_TO_SLEEP] the core moves to [SLEEPING]
    and logs one record with the reason ["System shutdown"]; from [WORKING]
    the transition to [SLEEPING] is outside the table, so [stop] raises
    [ValueError] and the core stays [WORKING]. *)
Theorem stop_by_state (now : datetime) (c : ProactiveCore) :
  match c.(_state) with
  | SLEEPING => stop now c = (Return tt, c)
  | WORKING => stop now c = (Raise (ValueError (invalid_transition_msg WORKING SLEEPING)), c)
  | s =>
      exists c', stop now c = (Return tt, c') /\ c'.(_state) = SLEEPING
        /\ c'.(_transitions)
           = keep_last_100 (c.(_transitions)
                            ++ [mkStateTransition s SLEEPING now "System shutdown"])
  end.
Proof.
  destruct c as [s ts ctx]. destruct s; simpl; try reflexivity;
    eexists; split; try reflexivity; split; reflexivity.
Qed.

(** [_context.current_state] always equals [_state]: every call of a run
    of [_transition_to], [force_state], [wake_up] and [go_to_sleep] (raising
    or not) keeps the two equal. *)
Theorem context_mirrors_state (ops : list CoreOp) (c : ProactiveCore) :
  c.(_context).(current_state) = c.(_state) ->
  Forall (fun c' => c'.(_context).(current_state) = c'.(_state)) (run_ops ops c).
Proof.
  intros H. apply (run_ops_kept mirrored); [intros op _; apply run_op_mirrored | exact H].
Qed.

Lemma context_mirrors_state_witness :
  init_core.(_context).(current_state) = init_core.(_state)
  /\ Forall (fun c' => c'.(_context).(current_state) = c'.(_state)) (run_ops ops_101 init_core).
Proof.
  assert (H : init_core.(_context).(current_state) = init_core.(_state)) by reflexivity.
  split; [exact H | exact (context_mirrors_state ops_101 init_core H)].
Defined.

(** Without [force_state], the log never grows past 100 records: in a run
    of [_transition_to], [wake_up] and [go_to_sleep] calls (raising or not)
    from a core whose log has at most 100 records, every core has at most
    100 records. *)
Theorem unforced_run_log_bounded (ops : list CoreOp) (c : ProactiveCore) :
  (List.length c.(_transitions) <= 100)%nat -> forallb unforced ops = true ->
  Forall (fun c' => (List.length c'.(_transitions) <= 100)%nat) (run_ops ops c).
Proof.
  intros H Hops. apply (run_ops_kept log_bounded); [|exact H].
  intros op Hin. rewrite forallb_forall in Hops. specialize (Hops op Hin).
  destruct op as [s why now | s why now | why p t1 t2 t3 | why t1 t2]; simpl;
    [apply transition_to_log_bounded | discriminate | |].
  - unfold wake_up. kept_steps.
    destruct a; kept_steps; try apply transition_to_log_bounded; apply on_wakeup_log_bounded.
  - unfold go_to_sleep. kept_steps.
    destruct a; kept_steps; try apply transition_to_log_bounded; intros c' H'; exact H'.
Qed.

Lemma unforced_run_log_bounded_witness :
  (List.length init_core.(_transitions) <= 100)%nat
  /\ forallb unforced (removelast ops_101) = true
  /\ Forall (fun c' => (List.length c'.(_transitions) <= 100)%nat)
       (run_ops (removelast ops_101) init_core).
Proof.
  assert (H1 : (List.length init_core.(_transitions) <= 100)%nat) by (simpl; lia).
  assert (H2 : forallb unforced (removelast ops_101) = true) by (vm_compute; reflexivity).
  split; [exact H1 | split; [exact H2|]].
  exact (unforced_run_log_bounded (removelast ops_101) init_core H1 H2).
Defined.

(** [wake_up] from [SLEEPING] returns [true] and ends [AWAKE] with
    [last_wakeup] set to the clock read of the last transition; the daily
    counter [tasks_completed_today] is reset to 0 when the previous
    [last_wakeup] falls on an earlier date than the clock read of
    [_on_wakeup], and kept otherwise; the log gains the two records
    [SLEEPING -> WAKING_UP] and [WAKING_UP -> AWAKE]. *)
Theorem wake_up_resets_daily_counter (why : string) (p : option (option datetime))
  (t1 t2 t3 : datetime) (c : ProactiveCore) :
  c.(_state) = SLEEPING ->
  exists c', wake_up why p t1 t2 t3 c = (Return true, c')
    /\ c'.(_state) = AWAKE
    /\ c'.(_context).(last_wakeup) = Some t3
    /\ c'.(_context).(tasks_completed_today)
       = match c.(_context).(last_wakeup) with
         | Some lw => if date_of lw <? date_of t2 then 0
                      else c.(_context).(tasks_completed_today)
         | None => c.(_context).(tasks_completed_today)
         end
    /\ c'.(_transitions)
       = keep_last_100 (keep_last_100 (c.(_transitions)
           ++ [mkStateTransition SLEEPING WAKING_UP t1 why])
           ++ [mkStateTransition WAKING_UP AWAKE t3 "Initialization complete"]).
Proof.
  destruct c as [s ts ctx]. simpl. intros ->.
  eexists. split; [reflexivity|]. simpl.
  split; [reflexivity|]. split; [reflexivity|]. split; [|reflexivity].
  destruct p as [lu|]; simpl;
    destruct (last_wakeup ctx) as [lw|]; simpl; try reflexivity;
    destruct (date_of lw <? date_of t2); reflexivity.
Qed.

Lemma wake_up_resets_daily_counter_witness :
  exists c', wake_up "Manual wakeup" None 1 (2 * day_us) 3 core_at_day0 = (Return true, c')
    /\ c'.(_state) = AWAKE /\ c'.(_context).(last_wakeup) = Some 3
    /\ c'.(_context).(tasks_completed_today) = 0
    /\ c'.(_transitions)
       = keep_last_100 (keep_last_100 (core_at_day0.(_transitions)
           ++ [mkStateTransition SLEEPING WAKING_UP 1 "Manual wakeup"])
           ++ [mkStateTransition WAKING_UP AWAKE 3 "Initialization complete"]).
Proof.
  destruct (wake_up_resets_daily_counter "Manual wakeup" None 1 (2 * day_us) 3 core_at_day0
              eq_refl) as [c' [H1 [H2 [H3 [H4 H5]]]]].
  exists c'. split; [exact H1|]. split; [exact H2|]. split; [exact H3|].
  split; [rewrite H4; reflexivity | exact H5].
Defined.

(** [context.next_scheduled_task] is never written: after any run of core
    calls from [ProactiveCore()] it is still [None], so the "task due soon"
    guard of [_should_sleep] never applies and [_should_sleep] answers by
    the idle timeout alone: [true] exactly when more than 5 minutes have
    passed since [last_wakeup]. *)
Theorem should_sleep_idle_only (ops : list CoreOp) (now : datetime) :
  Forall (fun c => c.(_context).(next_scheduled_task) = None
           /\ _should_sleep now c
              = (Return (match c.(_context).(last_wakeup) with
                         | Some lw => _idle_timeout <? now - lw
                         | None => false
                         end), c))
    (init_core :: run_ops ops init_core).
Proof.
  assert (H : Forall no_next_task (init_core :: run_ops ops init_core)).
  { constructor; [reflexivity|].
    apply run_ops_kept; [intros op _; apply run_op_no_next_task | reflexivity]. }
  eapply Forall_impl; [|exact H]. intros c Hc. split; [exact Hc|].
  unfold _should_sleep, no_next_task in *. rewrite Hc.
  destruct (last_wakeup _) as [lw|]; [destruct (_idle_timeout <? now - lw)|]; reflexivity.
Qed.

End CoreProofs.

(* ================================================================== *)
(** * Properties of the task queue *)

Module SchedulerProofs.
Import Scheduler.

Lemma key_lt_false_iff (a b : ProactiveTask) : key_lt b a = false <-> queue_le a b.
Proof.
  unfold key_lt, queue_le, time_or_max, sort_key. simpl.
  destruct (scheduled_time a), (scheduled_time b);
  rewrite orb_false_iff, andb_false_iff, Z.ltb_ge, Z.eqb_neq, Z.ltb_ge; lia.
Qed.

Lemma key_lt_true_le (a b : ProactiveTask) : key_lt a b = true -> queue_le a b.
Proof.
  intros H. apply key_lt_false_iff.
  unfold key_lt, sort_key in *. simpl in *.
  destruct (scheduled_time a), (scheduled_time b);
  apply orb_true_iff in H; rewrite orb_false_iff, andb_false_iff, Z.ltb_ge,
    Z.eqb_neq, Z.ltb_ge;
  rewrite andb_true_iff, Z.ltb_lt, Z.eqb_eq, Z.ltb_lt in H; lia.
Qed.

#[local] Instance queue_le_trans : Transitive queue_le.
Proof. intros a b c. unfold queue_le. lia. Qed.

Lemma insert_by_key_hd (u x : ProactiveTask) (l : list ProactiveTask) :
  HdRel queue_le u l -> queue_le u x -> HdRel queue_le u (insert_by_key x l).
Proof.
  intros Hd Hux. destruct l as [|v vs]; simpl.
  - constructor; assumption.
  - destruct (key_lt x v); constructor; [assumption | inversion Hd; assumption].
Qed.

Lemma insert_by_key_sorted (x : ProactiveTask) (l : list ProactiveTask) :
  Sorted queue_le l -> Sorted queue_le (insert_by_key x l).
Proof.
  induction l as [|u us IH]; intros Hs; simpl.
  - repeat constructor.
  - destruct (key_lt x u) eqn:E.
    + constructor; [assumption | constructor; apply key_lt_true_le; assumption].
    + apply Sorted_inv in Hs as [Hus Hd]. constructor; [apply IH; assumption |].
      apply insert_by_key_hd; [assumption | apply key_lt_false_iff; assumption].
Qed.

Lemma sort_by_key_sorted (l : list ProactiveTask) : Sorted queue_le (sort_by_key l).
Proof.
  unfold sort_by_key.
  assert (G : forall acc, Sorted queue_le acc ->
            Sorted queue_le (fold_left (fun acc t => insert_by_key t acc) l acc)).
  { induction l as [|x xs IH]; intros acc Hacc; simpl; [assumption |].
    apply IH, insert_by_key_sorted, Hacc. }
  apply G. constructor.
Qed.

Lemma insert_by_key_perm (x : ProactiveTask) (l : list ProactiveTask) :
  Permutation (insert_by_key x l) (x :: l).
Proof.
  induction l as [|u us IH]; simpl; [reflexivity|].
  destruct (key_lt x u); [reflexivity|].
  rewrite IH. apply perm_swap.
Qed.

Lemma sort_by_key_perm (l : list ProactiveTask) : Permutation (sort_by_key l) l.
Proof.
  unfold sort_by_key.
  assert (G : forall acc, Permutation
            (fold_left (fun acc t => insert_by_key t acc) l acc) (acc ++ l)).
  { induction l as [|x xs IH]; intros acc; simpl; [rewrite app_nil_r; reflexivity |].
    rewrite IH, insert_by_key_perm. simpl. apply Permutation_middle. }
  apply G.
Qed.


Lemma filter_sorted (f : ProactiveTask -> bool) (l : list ProactiveTask) :
  Sorted queue_le l -> Sorted queue_le (filter f l).
Proof.
  intros Hs. apply StronglySorted_Sorted.
  apply Sorted_StronglySorted in Hs; [| exact queue_le_trans].
  induction Hs as [|a l Hl IH Hall]; simpl; [constructor|].
  destruct (f a); [|assumption].
  constructor; [assumption|].
  apply Forall_forall. intros x Hx. apply filter_In in Hx as [Hx _].
  rewrite Forall_forall in Hall. apply Hall, Hx.
Qed.

(** Dropping an id from the queue forgets what was written to its entry. *)
Lemma filter_sync_task (t : ProactiveTask) (tid : string) (l : list ProactiveTask) :
  t.(id) = tid ->
  filter (fun u => negb (String.eqb u.(id) tid)) (sync_task t l)
  = filter (fun u => negb (String.eqb u.(id) tid)) l.
Proof.
  intros Hid. induction l as [|u us IH]; simpl; [reflexivity|].
  destruct (String.eqb (id u) (id t)) eqn:E; simpl.
  - rewrite Hid, String.eqb_refl. simpl. apply String.eqb_eq in E.
    rewrite E, Hid, String.eqb_refl. simpl. exact IH.
  - rewrite IH. reflexivity.
Qed.

Lemma add_task_tasks_cases (t : ProactiveTask) (s : TaskScheduler) :
  _tasks (snd (add_task t s)) = _tasks s
  \/ Sorted queue_le (_tasks (snd (add_task t s))).
Proof.
  unfold add_task. destruct (existsb _ _); [left; reflexivity|].
  right. apply sort_by_key_sorted.
Qed.

Lemma reschedule_tasks_cases (t : ProactiveTask) (nid : string) (now : datetime)
  (s : TaskScheduler) :
  _tasks (snd (_reschedule_recurring_task t nid now s)) = _tasks s
  \/ Sorted queue_le (_tasks (snd (_reschedule_recurring_task t nid now s))).
Proof.
  unfold _reschedule_recurring_task.
  destruct (recurrence_interval t); [|left; reflexivity].
  destruct (_ || _); [left; reflexivity|]. simpl. apply add_task_tasks_cases.
Qed.

(** ** C6 (counterexample)
    Adding a task scheduled at [datetime.max] to a queue holding a task of
    the same priority without [scheduled_time] leaves the task without a
    time first: the two keys tie and the stable sort keeps list order. *)
Lemma add_task_null_before_max :
  _tasks (snd (add_task (example_task "b" 5 (Some datetime_max))
                 (mkTaskScheduler [example_task "a" 5 None] [])))
  = [example_task "a" 5 None; example_task "b" 5 (Some datetime_max)]
  /\ ~ Sorted claim_le [example_task "a" 5 None; example_task "b" 5 (Some datetime_max)].
Proof.
  split; [reflexivity|].
  intros H. apply Sorted_inv in H as [_ H]. apply HdRel_inv in H.
  unfold claim_le in H; simpl in H. lia.
Qed.

(** ** C6 (amended)
    A non-duplicate [add_task] leaves the queue sorted by priority
    descending, then by [scheduled_time] ascending where a missing time
    counts as [datetime.max]; a duplicate [add_task] changes nothing; and
    [execute_task], which moves the task to history, keeps a sorted queue
    sorted. *)
Theorem add_task_keeps_queue_sorted (t : ProactiveTask) (s : TaskScheduler)
  (x : ProactiveTask) (o : ExecOutcome) (t_start t_done : datetime) (nid : string) :
  (existsb (fun u => String.eqb u.(id) t.(id)) s.(_tasks) = false ->
   Sorted queue_le (_tasks (snd (add_task t s)))) /\
  (existsb (fun u => String.eqb u.(id) t.(id)) s.(_tasks) = true ->
   add_task t s = (t.(id), s)) /\
  (Sorted queue_le s.(_tasks) ->
   Sorted queue_le (_tasks (snd (execute_task x o t_start t_done nid s)))).
Proof.
  split; [|split].
  - intros H. unfold add_task. rewrite H. apply sort_by_key_sorted.
  - intros H. unfold add_task. rewrite H. reflexivity.
  - intros Hs. unfold execute_task. destruct o as [r | msg]; cbv zeta; simpl snd.
    + destruct (_ && _).
      * destruct (reschedule_tasks_cases (mark_completed t_done r (mark_started t_start x))
                    nid t_done (with_task (mark_completed t_done r (mark_started t_start x))
                       (with_task (mark_started t_start x) s))) as [E | E];
        unfold _move_to_history; simpl; [rewrite E | apply filter_sorted, E].
        simpl. rewrite !filter_sync_task by reflexivity. apply filter_sorted, Hs.
      * unfold _move_to_history; simpl.
        rewrite !filter_sync_task by reflexivity. apply filter_sorted, Hs.
    + unfold _move_to_history; simpl.
      rewrite !filter_sync_task by reflexivity. apply filter_sorted, Hs.
Qed.

Lemma add_task_keeps_queue_sorted_witness :
  existsb (fun u => String.eqb u.(id) "a") (_tasks queue_t1) = false
  /\ Sorted queue_le (_tasks (snd (add_task (example_task "a" 5 None) queue_t1))).
Proof.
  assert (H : existsb (fun u => String.eqb u.(id) "a") (_tasks queue_t1) = false)
    by reflexivity.
  split; [exact H|].
  exact (proj1 (add_task_keeps_queue_sorted (example_task "a" 5 None) queue_t1
                  example_recurring (ExecOk "ok") 0 1 "b") H).
Defined.

(** Parts of [cancel_task]'s contract that the code meets. *)
Lemma cancel_first_none (tid : string) (l : list ProactiveTask) :
  cancel_first tid l = None <->
  ~ exists u, In u l /\ u.(id) = tid /\ (u.(status) = PENDING \/ u.(status) = SCHEDULED).
Proof.
  induction l as [|t ts IH]; simpl.
  - split; [intros _ [u [[] _]] | reflexivity].
  - destruct (String.eqb (id t) tid && _) eqn:E.
    + split; [discriminate|]. intros H; exfalso; apply H.
      apply andb_true_iff in E as [E1 E2]. apply String.eqb_eq in E1.
      exists t; split; [left; reflexivity | split; [exact E1|]].
      destruct (status t); simpl in E2; try discriminate; auto.
    + destruct (cancel_first tid ts) as [[c ts']|].
      * split; [discriminate|]. intros H. exfalso.
        assert (Hn : ~ (Some (c, ts') = None)) by discriminate.
        apply Hn, IH. intros [u [Hu Hu']]. apply H. exists u; auto.
      * split; [|reflexivity]. intros _ [u [[<- | Hu] [Hid Hst]]].
        -- apply andb_false_iff in E as [E | E].
           ++ apply String.eqb_neq in E. contradiction.
           ++ destruct Hst as [Hst | Hst]; rewrite Hst in E; discriminate.
        -- apply (proj1 IH eq_refl). exists u; auto.
Qed.

Lemma cancel_first_some (tid : string) (l l' : list ProactiveTask) (c : ProactiveTask) :
  cancel_first tid l = Some (c, l') ->
  exists u, In u l /\ u.(id) = tid /\ (u.(status) = PENDING \/ u.(status) = SCHEDULED)
    /\ c = set_status CANCELLED u.
Proof.
  revert l'. induction l as [|t ts IH]; simpl; intros l' H; [discriminate|].
  destruct (String.eqb (id t) tid && _) eqn:E.
  - injection H as <- _. apply andb_true_iff in E as [E1 E2].
    apply String.eqb_eq in E1. exists t. split; [left; reflexivity|].
    split; [exact E1|]. split; [|reflexivity].
    destruct (status t); simpl in E2; try discriminate; auto.
  - destruct (cancel_first tid ts) as [[c' ts']|] eqn:E'; [|discriminate].
    injection H as <- _. destruct (IH ts' eq_refl) as [u [Hu Hrest]].
    exists u. split; [right; exact Hu | exact Hrest].
Qed.

Lemma cancel_task_contract (tid : string) (s : TaskScheduler) :
  (fst (cancel_task tid s) = true <->
   exists u, In u s.(_tasks) /\ u.(id) = tid
             /\ (u.(status) = PENDING \/ u.(status) = SCHEDULED)) /\
  (fst (cancel_task tid s) = false -> snd (cancel_task tid s) = s).
Proof.
  pose proof (cancel_first_none tid (_tasks s)) as H.
  unfold cancel_task. destruct (cancel_first tid (_tasks s)) as [[c ts]|] eqn:Ec; simpl.
  - split; [|discriminate]. split; [intros _|reflexivity].
    destruct (cancel_first_some tid (_tasks s) ts c Ec) as [u [Hu [Hid [Hst _]]]].
    exists u; auto.
  - split; [|reflexivity]. split; [discriminate|]. intros E. exfalso. apply H; auto.
Qed.

(** ** C4
    [cancel_task] on a pending task returns [true] and marks it
    [CANCELLED], but the task stays in the active queue and the history
    stays empty: the [_move_to_history] coroutine is never awaited. *)
Theorem cancel_task_not_moved_to_history :
  cancel_task "t1" queue_t1
  = (true, mkTaskScheduler [set_status CANCELLED (example_task "t1" 5 None)] []).
Proof. reflexivity. Qed.

Lemma cancel_first_cancelled (tid : string) (l l' : list ProactiveTask)
  (c : ProactiveTask) :
  NoDup (map id l) -> cancel_first tid l = Some (c, l') ->
  forall u, In u l' -> u.(id) = tid -> u.(status) = CANCELLED.
Proof.
  revert l' c. induction l as [|t ts IH]; simpl; intros l' c Hnd H; [discriminate|].
  inversion Hnd as [|? ? Hnin Hnd']; subst.
  destruct (String.eqb (id t) tid && _) eqn:E.
  - injection H as _ <-. apply andb_true_iff in E as [E _].
    apply String.eqb_eq in E.
    intros u [<- | Hu] Hid; [reflexivity|].
    exfalso. apply Hnin. rewrite E, <- Hid. apply in_map, Hu.
  - destruct (cancel_first tid ts) as [[c' ts']|] eqn:E'; [|discriminate].
    injection H as _ <-. intros u [<- | Hu] Hid.
    + exfalso. destruct (cancel_first_some tid ts ts' c' E') as [v [Hv [Hvid _]]].
      apply Hnin. rewrite Hid, <- Hvid. apply in_map, Hv.
    + apply (IH ts' c' Hnd' eq_refl u Hu Hid).
Qed.

Lemma is_due_not_waiting (now : datetime) (t : ProactiveTask) :
  t.(status) <> PENDING -> t.(status) <> SCHEDULED -> is_due now t = false.
Proof. unfold is_due. destruct (status t); congruence. Qed.

Lemma existsb_drop_not_due (now : datetime) (tid : string) (l : list ProactiveTask) :
  (forall u, In u l -> u.(id) = tid -> is_due now u = false) ->
  existsb (is_due now) l
  = existsb (is_due now) (filter (fun u => negb (String.eqb u.(id) tid)) l).
Proof.
  induction l as [|t ts IH]; simpl; intros H; [reflexivity|].
  rewrite IH by (intros u Hu; apply H; right; exact Hu).
  destruct (String.eqb (id t) tid) eqn:E; simpl; [|reflexivity].
  apply String.eqb_eq in E. rewrite (H t (or_introl eq_refl) E). reflexivity.
Qed.

(** ** C10
    With ids unique in the active queue (which [add_task] enforces), once
    [cancel_task tid] has returned [true] the queue it leaves never yields
    a task with id [tid] from [get_next_task], at any clock reading, and
    [has_due_tasks] answers as if that task were absent. *)
Theorem cancelled_task_never_due (tid : string) (s s' : TaskScheduler) :
  NoDup (map id s.(_tasks)) -> cancel_task tid s = (true, s') ->
  forall now : datetime,
    (forall u, get_next_task now s' = Some u -> u.(id) <> tid) /\
    has_due_tasks now s'
    = existsb (is_due now) (filter (fun u => negb (String.eqb u.(id) tid)) s'.(_tasks)).
Proof.
  intros Hnd Hc now.
  unfold cancel_task in Hc.
  destruct (cancel_first tid (_tasks s)) as [[c l']|] eqn:E; [|discriminate].
  injection Hc as <-. simpl.
  assert (Hnot : forall u, In u l' -> u.(id) = tid -> is_due now u = false).
  { intros u Hu Hid. apply is_due_not_waiting;
      rewrite (cancel_first_cancelled tid (_tasks s) l' c Hnd E u Hu Hid); discriminate. }
  split.
  - intros u Hu Hid. unfold get_next_task in Hu; simpl in Hu.
    apply find_some in Hu as [Hin Hdue]. rewrite (Hnot u Hin Hid) in Hdue. discriminate.
  - unfold has_due_tasks; simpl. apply existsb_drop_not_due, Hnot.
Qed.

Lemma cancelled_task_never_due_witness :
  NoDup (map id (_tasks queue_t1))
  /\ cancel_task "t1" queue_t1
     = (true, mkTaskScheduler [set_status CANCELLED (example_task "t1" 5 None)] [])
  /\ get_next_task 0 (mkTaskScheduler [set_status CANCELLED (example_task "t1" 5 None)] [])
     = None.
Proof.
  assert (Hnd : NoDup (map id (_tasks queue_t1))).
  { simpl. constructor; [intros [] | constructor]. }
  assert (Hc : cancel_task "t1" queue_t1
     = (true, mkTaskScheduler [set_status CANCELLED (example_task "t1" 5 None)] []))
    by reflexivity.
  split; [exact Hnd | split; [exact Hc|]].
  pose proof (proj1 (cancelled_task_never_due "t1" queue_t1 _ Hnd Hc 0)) as H.
  destruct (get_next_task 0 _) as [u|] eqn:Eu; [|reflexivity].
  exfalso. apply (H u eq_refl). simpl in Eu. discriminate.
Defined.



Lemma existsb_fresh (nid : string) (l : list ProactiveTask) :
  ~ In nid (map id l) -> existsb (fun u => String.eqb u.(id) nid) l = false.
Proof.
  induction l as [|u us IH]; simpl; intros H; [reflexivity|].
  destruct (String.eqb (id u) nid) eqn:E.
  - apply String.eqb_eq in E. exfalso. apply H. left. exact E.
  - apply IH. intros Hin. apply H. right. exact Hin.
Qed.


(** [execution_time_ms] follows Python's float arithmetic: a run of
    1001000 microseconds gives [int(1.001 * 1000)], which is 1000. *)
Lemma elapsed_ms_float_rounding : elapsed_ms (Some 0) 1001000 = Some 1000.
Proof. vm_compute. reflexivity. Qed.




(** ** C7
    After [t1], [t2], [t3] are moved to history (newest first in
    [_task_history]), [list_history 1] returns [t1], the oldest entry,
    instead of [t3]; [list_history 0] returns the whole history. *)
Theorem list_history_returns_oldest :
  _task_history history_3 = [done_task "t3"; done_task "t2"; done_task "t1"]
  /\ list_history 1 history_3 = [done_task "t1"]
  /\ list_history 0 history_3 = [done_task "t3"; done_task "t2"; done_task "t1"].
Proof. repeat split; reflexivity. Qed.

(* ------------------------------------------------------------------ *)
(** ** Further properties of the task queue *)

Lemma add_task_history (t : ProactiveTask) (s : TaskScheduler) :
  _task_history (snd (add_task t s)) = _task_history s.
Proof. unfold add_task. destruct (existsb _ _); reflexivity. Qed.


(** The queue [add_task] leaves for a new id: the sorted old queue (cleaned
    up when full) plus the task. *)
Lemma add_task_fresh_perm (t : ProactiveTask) (s : TaskScheduler) :
  existsb (fun u => String.eqb u.(id) t.(id)) s.(_tasks) = false ->
  Permutation (_tasks (snd (add_task t s)))
    ((if (_max_tasks_in_queue <=? List.length s.(_tasks))%nat
      then _cleanup_queue s.(_tasks) else s.(_tasks)) ++ [t]).
Proof. intros H. unfold add_task. rewrite H. simpl. apply sort_by_key_perm. Qed.

Lemma add_task_in (t u : ProactiveTask) (s : TaskScheduler) :
  In u (_tasks (snd (add_task t s))) -> u = t \/ In u s.(_tasks).
Proof.
  unfold add_task. destruct (existsb _ _) eqn:E; [intros H; right; exact H|].
  destruct (_max_tasks_in_queue <=? List.length (_tasks s))%nat; cbn [snd _tasks];
    intros H; apply (Permutation_in _ (sort_by_key_perm _)) in H;
    apply in_app_or in H as [H | [H | []]]; try (left; symmetry; exact H); right;
    [apply filter_In in H; apply H | exact H].
Qed.

Lemma add_task_keeps (t u : ProactiveTask) (s : TaskScheduler) :
  In u (_cleanup_queue s.(_tasks)) -> In u (_tasks (snd (add_task t s))).
Proof.
  intros Hu. assert (Hs : In u s.(_tasks)) by (apply filter_In in Hu; apply Hu).
  unfold add_task. destruct (existsb _ _) eqn:E; [exact Hs|].
  destruct (_max_tasks_in_queue <=? List.length (_tasks s))%nat; cbn [snd _tasks];
    apply (Permutation_in _ (Permutation_sym (sort_by_key_perm _)));
    apply in_or_app; left; assumption.
Qed.

(** [has_due_tasks] and [get_next_task] agree, and [get_next_task] returns
    the first due task of the queue: every task before it in queue order
    is not due; when it returns [None], no task of the queue is due. *)
Theorem get_next_task_first_due (now : datetime) (s : TaskScheduler) :
  match get_next_task now s with
  | Some t =>
      has_due_tasks now s = true /\ is_due now t = true
      /\ exists pre post, s.(_tasks) = pre ++ t :: post
                          /\ forallb (fun u => negb (is_due now u)) pre = true
  | None =>
      has_due_tasks now s = false
      /\ forallb (fun u => negb (is_due now u)) s.(_tasks) = true
  end.
Proof.
  unfold has_due_tasks, get_next_task. destruct s as [l h]; simpl. clear h.
  induction l as [|u us IH]; simpl; [split; reflexivity|].
  destruct (is_due now u) eqn:E; simpl; rewrite ?E; simpl.
  - split; [reflexivity|]. split; [reflexivity|]. exists [], us. split; reflexivity.
  - destruct (find (is_due now) us) as [t|]; [|exact IH].
    destruct IH as [H1 [Hd [pre [post [Hl Hpre]]]]]. split; [exact H1|]. split; [exact Hd|].
    exists (u :: pre), post. rewrite Hl. split; [reflexivity|]. simpl. rewrite E. exact Hpre.
Qed.

(** A due task stays due at every later clock reading: only a change of
    its status makes it not due again. *)
Theorem is_due_stays_due (now later : datetime) (t : ProactiveTask) :
  is_due now t = true -> now <= later -> is_due later t = true.
Proof.
  unfold is_due. intros H Hl.
  destruct (status t); try discriminate; destruct (scheduled_time t) as [st|];
    try reflexivity; apply Z.leb_le in H; apply Z.leb_le; lia.
Qed.

Lemma is_due_stays_due_witness :
  is_due 10 (example_task "t1" 5 (Some 10)) = true /\ 10 <= 20
  /\ is_due 20 (example_task "t1" 5 (Some 10)) = true.
Proof.
  assert (H1 : is_due 10 (example_task "t1" 5 (Some 10)) = true) by reflexivity.
  assert (H2 : 10 <= 20) by lia.
  split; [exact H1 | split; [exact H2 | exact (is_due_stays_due 10 20 _ H1 H2)]].
Defined.





Lemma pop_first_id_spec (tid : string) (l : list ProactiveTask) :
  match pop_first_id tid l with
  | Some l' => exists pre t post, l = pre ++ t :: post /\ t.(id) = tid
               /\ existsb (fun u => String.eqb u.(id) tid) pre = false /\ l' = pre ++ post
  | None => existsb (fun u => String.eqb u.(id) tid) l = false
  end.
Proof.
  induction l as [|u us IH]; simpl; [reflexivity|].
  destruct (String.eqb (id u) tid) eqn:E.
  - exists [], u, us. apply String.eqb_eq in E. auto.
  - destruct (pop_first_id tid us) as [l'|]; simpl; [|exact IH].
    destruct IH as [pre [t [post [Hl [Ht [Hpre Hl']]]]]].
    exists (u :: pre), t, post. subst. simpl. rewrite E. auto.
Qed.

(** [delete_from_history(task_id)] returns [true] exactly when a history
    entry has the id; it then removes the first such entry and nothing
    else, and otherwise changes nothing; the active queue is untouched. *)
Theorem delete_from_history_first_match (tid : string) (s : TaskScheduler) :
  _tasks (snd (delete_from_history tid s)) = s.(_tasks)
  /\ fst (delete_from_history tid s)
     = existsb (fun t => String.eqb t.(id) tid) s.(_task_history)
  /\ if fst (delete_from_history tid s)
     then exists pre t post, s.(_task_history) = pre ++ t :: post /\ t.(id) = tid
          /\ existsb (fun u => String.eqb u.(id) tid) pre = false
          /\ _task_history (snd (delete_from_history tid s)) = pre ++ post
     else snd (delete_from_history tid s) = s.
Proof.
  pose proof (pop_first_id_spec tid s.(_task_history)) as H.
  unfold delete_from_history.
  destruct (pop_first_id tid (_task_history s)) as [l'|]; simpl.
  - destruct H as [pre [t [post [Hl [Ht [Hpre Hl']]]]]].
    split; [reflexivity|]. split.
    + rewrite Hl, existsb_app, Hpre. simpl. rewrite Ht, String.eqb_refl. reflexivity.
    + exists pre, t, post. auto.
  - split; [reflexivity|]. split; [symmetry; exact H | reflexivity].
Qed.

Lemma date_of_combine (d x : Z) :
  0 <= x < day_us -> Core.date_of (combine d x) = d.
Proof.
  intros Hx. unfold Core.date_of, combine, day_us in *.
  rewrite Z.div_add_l by lia. rewrite Z.div_small by lia. lia.
Qed.

Lemma date_of_bounds (now : datetime) :
  Core.date_of now * day_us <= now < Core.date_of now * day_us + day_us.
Proof.
  unfold Core.date_of, day_us.
  pose proof (Z.mul_div_le now 86400000000 ltac:(lia)).
  pose proof (Z.mod_pos_bound now 86400000000 ltac:(lia)).
  pose proof (Z.div_mod now 86400000000 ltac:(lia)). lia.
Qed.

Lemma first_reflection_spec (now : datetime) (today : Z) (hours : list (Z * string))
  (h : Z) (ttl : string) :
  first_reflection now today hours = Some (h, ttl) ->
  In (h, ttl) hours /\ now < combine today (h * hour_us).
Proof.
  induction hours as [|[h' t'] rest IH]; simpl; [discriminate|].
  destruct (now <? combine today (h' * hour_us)) eqn:E.
  - intros H. injection H as <- <-. apply Z.ltb_lt in E. auto.
  - intros H. destruct (IH H). auto.
Qed.

Lemma add_fresh_added_today (now : datetime) (s0 : TaskScheduler) (fresh : IdSupply)
  (mk : string -> datetime -> ProactiveTask) (ks : nat * TaskScheduler) :
  (forall tid c, exists x, (mk tid c).(scheduled_time) = Some x /\ now < x
                           /\ Core.date_of x = Core.date_of now) ->
  added_today now s0 ks -> added_today now s0 (add_fresh fresh mk ks).
Proof.
  intros Hmk Hks u. destruct ks as [k s]. unfold add_fresh.
  destruct (fresh k) as [tid c]. simpl. intros Hu.
  apply add_task_in in Hu as [-> | Hu]; [right; apply Hmk | apply Hks, Hu].
Qed.

Lemma daily_slot (now : datetime) (x : Z) :
  0 <= x < day_us -> now < combine (Core.date_of now) x ->
  exists y, Some (combine (Core.date_of now) x) = Some y /\ now < y
            /\ Core.date_of y = Core.date_of now.
Proof. intros Hx Hn. eexists. split; [reflexivity|]. split; [exact Hn|]. apply date_of_combine, Hx. Qed.

Lemma add_fresh_next (fresh : IdSupply) (mk : string -> datetime -> ProactiveTask)
  (ks : nat * TaskScheduler) : fst (add_fresh fresh mk ks) = S (fst ks).
Proof. destruct ks as [k s]. unfold add_fresh. destruct (fresh k). reflexivity. Qed.

Lemma add_fresh_history (fresh : IdSupply) (mk : string -> datetime -> ProactiveTask)
  (ks : nat * TaskScheduler) :
  _task_history (snd (add_fresh fresh mk ks)) = _task_history (snd ks).
Proof. destruct ks as [k s]. unfold add_fresh. destruct (fresh k). apply add_task_history. Qed.

Lemma daily_step (now : datetime) (s0 : TaskScheduler) (k0 n : nat) (fresh : IdSupply)
  (b : bool) (mk : string -> datetime -> ProactiveTask) (ks : nat * TaskScheduler) :
  (b = true -> forall tid c, exists x, (mk tid c).(scheduled_time) = Some x /\ now < x
                                     /\ Core.date_of x = Core.date_of now) ->
  daily_step_ok now s0 k0 n ks ->
  daily_step_ok now s0 k0 (S n) (if b then add_fresh fresh mk ks else ks).
Proof.
  intros Hmk [Ha [Hk Hh]]. destruct b.
  - split; [apply add_fresh_added_today; [apply Hmk; reflexivity | exact Ha]|].
    rewrite add_fresh_next, add_fresh_history. split; [lia | exact Hh].
  - split; [exact Ha|]. split; [lia | exact Hh].
Qed.

(** [_schedule_daily_tasks] adds at most four tasks (it draws at most four
    fresh ids), leaves the history alone, and every task it adds is
    scheduled strictly after the clock read [now], on the same date:
    nothing it seeds is due at once or lands on another day. *)
Theorem schedule_daily_tasks_after_now (now : datetime) (fresh : IdSupply) (k : nat)
  (s : TaskScheduler) :
  (k <= fst (_schedule_daily_tasks now fresh (k, s)) <= k + 4)%nat
  /\ _task_history (snd (_schedule_daily_tasks now fresh (k, s))) = s.(_task_history)
  /\ forall u, In u (_tasks (snd (_schedule_daily_tasks now fresh (k, s)))) ->
       In u s.(_tasks)
       \/ exists x, u.(scheduled_time) = Some x /\ now < x
                    /\ Core.date_of x = Core.date_of now.
Proof.
  assert (H0 : daily_step_ok now s k 0 (k, s)).
  { split; [intros u Hu; left; exact Hu|]. simpl. split; [lia | reflexivity]. }
  assert (H1 : daily_step_ok now s k 1
                 (match first_reflection now (Core.date_of now) reflection_hours with
                  | Some (h, ttl) =>
                      add_fresh fresh (fun tid c => daily_task tid c SELF_REFLECTION ttl
                        "Think about what I know, what I need to learn, and plan my next tasks"
                        (combine (Core.date_of now) (h * hour_us)) 8 true (Some day_us)) (k, s)
                  | None => (k, s)
                  end)).
  { destruct (first_reflection now (Core.date_of now) reflection_hours) as [[h ttl]|] eqn:E.
    - apply first_reflection_spec in E as [Hin Hlt].
      apply (daily_step now s k 0 fresh true _ (k, s)); [|exact H0].
      intros _ tid c. apply daily_slot; [|exact Hlt].
      simpl in Hin. unfold hour_us, day_us.
      destruct Hin as [H|[H|[H|[H|[]]]]]; injection H as <- _; lia.
    - destruct H0 as [Ha [Hk Hh]]. split; [exact Ha|]. split; [simpl; lia | exact Hh]. }
  assert (Hfin : daily_step_ok now s k 4 (_schedule_daily_tasks now fresh (k, s))).
  { unfold _schedule_daily_tasks. cbv zeta.
    set (ks1 := match first_reflection now (Core.date_of now) reflection_hours with
                | Some (h, ttl) => _ | None => _ end) in *.
    assert (Hslot : forall x, 0 <= x < day_us ->
              forall mk : string -> datetime -> ProactiveTask,
              (forall tid c, (mk tid c).(scheduled_time) = Some (combine (Core.date_of now) x)) ->
              (now <? combine (Core.date_of now) x) = true ->
              forall tid c, exists y, (mk tid c).(scheduled_time) = Some y /\ now < y
                                      /\ Core.date_of y = Core.date_of now).
    { intros x Hx mk Hmk Hb tid c. rewrite Hmk. apply daily_slot; [exact Hx|].
      apply Z.ltb_lt, Hb. }
    assert (H2 := daily_step now s k 1 fresh
                    (now <? combine (Core.date_of now) (9 * hour_us + 30 * minute_us))
                    (fun tid c => daily_task tid c LEARN_FROM_HISTORY "Morning Review"
                       "Review yesterday's activities and update profile with new insights"
                       (combine (Core.date_of now) (9 * hour_us + 30 * minute_us)) 7 true
                       (Some day_us)) ks1).
    assert (H2' := H2 ltac:(intros Hb; apply (Hslot (9 * hour_us + 30 * minute_us) ltac:(unfold hour_us, minute_us, day_us; lia));
                              [intros; reflexivity | exact Hb]) H1).
    clear H2.
    set (ks2 := if now <? _ then _ else ks1) in H2'.
    assert (H3 := daily_step now s k 2 fresh
                    (now <? combine (Core.date_of now) (20 * hour_us + 30 * minute_us))
                    (fun tid c => daily_task tid c SUMMARIZE_PERIOD "Daily Summary"
                       "Summarize today's activities and update relevant profile files"
                       (combine (Core.date_of now) (20 * hour_us + 30 * minute_us)) 7 true
                       (Some day_us)) ks2).
    assert (H3' := H3 ltac:(intros Hb; apply (Hslot (20 * hour_us + 30 * minute_us) ltac:(unfold hour_us, minute_us, day_us; lia));
                              [intros; reflexivity | exact Hb]) H2').
    clear H3.
    set (ks3 := if now <? _ then _ else ks2) in H3'.
    assert (H4 := daily_step now s k 3 fresh
                    (now <? combine (Core.date_of now) (21 * hour_us))
                    (fun tid c => daily_task tid c DISCOVER_PATTERNS "Weekly Pattern Analysis"
                       "Analyze this week's activities and discover behavioral patterns"
                       (combine (Core.date_of now) (21 * hour_us)) 6 false None) ks3).
    assert (H4' := H4 ltac:(intros Hb; apply (Hslot (21 * hour_us) ltac:(unfold hour_us, day_us; lia));
                              [intros; reflexivity | exact Hb]) H3').
    clear H4.
    destruct (weekday (Core.date_of now) =? 6); [exact H4'|].
    destruct H3' as [Ha [Hk Hh]]. split; [exact Ha|]. split; [unfold ks3, ks2 in Hk; lia | exact Hh]. }
  destruct Hfin as [Ha [Hk Hh]]. split; [exact Hk|]. split; [exact Hh | exact Ha].
Qed.

Lemma add_fresh_keeps (fresh : IdSupply) (mk : string -> datetime -> ProactiveTask)
  (ks : nat * TaskScheduler) (u : ProactiveTask) :
  In u (_cleanup_queue (_tasks (snd ks))) ->
  In u (_cleanup_queue (_tasks (snd (add_fresh fresh mk ks)))).
Proof.
  destruct ks as [k s]. unfold add_fresh. destruct (fresh k) as [tid c]. cbn [snd].
  intros H. apply filter_In. split; [apply add_task_keeps, H|].
  apply filter_In in H. apply H.
Qed.

Lemma first_reflection_none (now : datetime) (today : Z) (hours : list (Z * string)) :
  first_reflection now today hours = None ->
  forall h ttl, In (h, ttl) hours -> combine today (h * hour_us) <= now.
Proof.
  induction hours as [|[h' t'] rest IH]; simpl; [tauto|].
  destruct (now <? combine today (h' * hour_us)) eqn:E; [discriminate|].
  intros H h ttl [Hh | Hh]; [injection Hh as <- <-; apply Z.ltb_ge, E | exact (IH H h ttl Hh)].
Qed.

(** After 22:00 no slot of the day is left: [_schedule_daily_tasks] adds
    nothing and draws no id. *)
Lemma schedule_daily_tasks_none (now : datetime) (fresh : IdSupply)
  (ks : nat * TaskScheduler) :
  first_reflection now (Core.date_of now) reflection_hours = None ->
  _schedule_daily_tasks now fresh ks = ks.
Proof.
  intros H. assert (H22 := first_reflection_none _ _ _ H 22 "Self Reflection (22:00)"
                             ltac:(simpl; tauto)).
  unfold _schedule_daily_tasks. rewrite H. cbv zeta.
  assert (Hm : (now <? combine (Core.date_of now) (9 * hour_us + 30 * minute_us)) = false)
    by (apply Z.ltb_ge; unfold combine, hour_us, minute_us in *; lia).
  assert (He : (now <? combine (Core.date_of now) (20 * hour_us + 30 * minute_us)) = false)
    by (apply Z.ltb_ge; unfold combine, hour_us, minute_us in *; lia).
  assert (Hp : (now <? combine (Core.date_of now) (21 * hour_us)) = false)
    by (apply Z.ltb_ge; unfold combine, hour_us in *; lia).
  rewrite Hm, He, Hp. destruct (weekday (Core.date_of now) =? 6); reflexivity.
Qed.

(** [ensure_daily_tasks] is idempotent at one clock reading: once it has
    run at [now] (and the first id it draws is new to the queue, as a
    uuid-based id is), a second run at the same [now], with any ids,
    changes nothing and draws no id, because the queue then holds a task
    scheduled today or no slot of the day is left. *)
Theorem ensure_daily_tasks_idempotent (now : datetime) (fresh fresh' : IdSupply)
  (k k' : nat) (s : TaskScheduler) :
  ~ In (fst (fresh k)) (map id s.(_tasks)) ->
  ensure_daily_tasks now fresh' (k', snd (ensure_daily_tasks now fresh (k, s)))
  = (k', snd (ensure_daily_tasks now fresh (k, s))).
Proof.
  intros Hfresh.
  destruct (existsb (scheduled_on (Core.date_of now)) (_tasks s)) eqn:E0.
  { unfold ensure_daily_tasks. cbn [snd]. rewrite E0. cbn [snd]. rewrite E0. reflexivity. }
  assert (Hks1 : ensure_daily_tasks now fresh (k, s) = _schedule_daily_tasks now fresh (k, s))
    by (unfold ensure_daily_tasks; cbn [snd]; rewrite E0; reflexivity).
  rewrite Hks1.
  destruct (first_reflection now (Core.date_of now) reflection_hours) as [[h ttl]|] eqn:Efr.
  2:{ rewrite (schedule_daily_tasks_none now fresh (k, s) Efr). cbn [snd].
      unfold ensure_daily_tasks. cbn [snd]. rewrite E0.
      apply schedule_daily_tasks_none, Efr. }
  destruct (fresh k) as [tid c] eqn:Ef. simpl in Hfresh.
  set (R := daily_task tid c SELF_REFLECTION ttl
              "Think about what I know, what I need to learn, and plan my next tasks"
              (combine (Core.date_of now) (h * hour_us)) 8 true (Some day_us)).
  assert (HR : In R (_cleanup_queue (_tasks (snd (add_fresh fresh (fun tid c =>
                 daily_task tid c SELF_REFLECTION ttl
                   "Think about what I know, what I need to learn, and plan my next tasks"
                   (combine (Core.date_of now) (h * hour_us)) 8 true (Some day_us)) (k, s)))))).
  { unfold add_fresh. rewrite Ef. cbn [snd]. apply filter_In. split; [|reflexivity].
    apply (Permutation_in _ (Permutation_sym (add_task_fresh_perm R s
             (existsb_fresh tid _ Hfresh)))).
    apply in_or_app. right. left. reflexivity. }
  assert (Hin : In R (_cleanup_queue (_tasks (snd (_schedule_daily_tasks now fresh (k, s)))))).
  { unfold _schedule_daily_tasks. rewrite Efr. cbv zeta.
    repeat match goal with |- context [if ?b then _ else _] => destruct b end;
      repeat first [exact HR | apply add_fresh_keeps]. }
  apply filter_In in Hin as [Hin _].
  assert (Hday : scheduled_on (Core.date_of now) R = true).
  { unfold scheduled_on, R, daily_task. cbn [scheduled_time].
    apply first_reflection_spec in Efr as [Hh _].
    rewrite date_of_combine; [apply Z.eqb_refl|].
    simpl in Hh. unfold hour_us, day_us.
    destruct Hh as [H|[H|[H|[H|[]]]]]; injection H as <- _; lia. }
  unfold ensure_daily_tasks. cbn [snd].
  replace (existsb (scheduled_on (Core.date_of now))
             (_tasks (snd (_schedule_daily_tasks now fresh (k, s))))) with true;
    [reflexivity|].
  symmetry. apply existsb_exists. exists R. split; [exact Hin | exact Hday].
Qed.

Lemma ensure_daily_tasks_idempotent_witness :
  ~ In (fst (fixed_ids 0)) (map id queue_t1.(_tasks))
  /\ ensure_daily_tasks (8 * hour_us) fixed_ids
       (7%nat, snd (ensure_daily_tasks (8 * hour_us) fixed_ids (0%nat, queue_t1)))
     = (7%nat, snd (ensure_daily_tasks (8 * hour_us) fixed_ids (0%nat, queue_t1))).
Proof.
  assert (H : ~ In (fst (fixed_ids 0)) (map id queue_t1.(_tasks))).
  { simpl. intros [H | []]. discriminate. }
  split; [exact H | exact (ensure_daily_tasks_idempotent _ fixed_ids fixed_ids 0 7 queue_t1 H)].
Defined.

End SchedulerProofs.

(* ================================================================== *)
(** * Properties of the wakeup triggers *)

Module WakeupProofs.
Import Wakeup.

Lemma nth_error_set_nth_other {A} (i j : nat) (x : A) (l : list A) :
  i <> j -> nth_error (set_nth j x l) i = nth_error l i.
Proof.
  revert i j. induction l as [|y ys IH]; intros i j Hij; [destruct j; reflexivity|].
  destruct j as [|j], i as [|i]; simpl; try reflexivity; [congruence|].
  apply IH. congruence.
Qed.

Lemma nth_error_set_nth_same {A} (j : nat) (x y : A) (l : list A) :
  nth_error l j = Some y -> nth_error (set_nth j x l) j = Some x.
Proof.
  revert j. induction l as [|z zs IH]; intros j H; [destruct j; discriminate|].
  destruct j as [|j]; simpl in *; [reflexivity | apply IH, H].
Qed.

Lemma due_with_index_spec (now : datetime) (k j : nat) (ts : list WakeupTrigger)
  (t : WakeupTrigger) :
  In (j, t) (due_with_index now k ts) ->
  (k <= j)%nat /\ nth_error ts (j - k) = Some t /\ is_due now t = true.
Proof.
  revert k. induction ts as [|u us IH]; intros k H; simpl in H; [contradiction|].
  assert (Hrest : In (j, t) (due_with_index now (S k) us) ->
                  (k <= j)%nat /\ nth_error (u :: us) (j - k) = Some t /\ is_due now t = true).
  { intros Hin. destruct (IH (S k) Hin) as [Hk [Hn Hd]].
    split; [lia|]. split; [|exact Hd].
    replace (j - k)%nat with (S (j - S k)) by lia. exact Hn. }
  destruct (is_due now u) eqn:E; [destruct H as [H | H] |].
  - injection H as <- <-. rewrite Nat.sub_diag. simpl. auto.
  - apply Hrest, H.
  - apply Hrest, H.
Qed.

Lemma first_highest_in (b : nat * WakeupTrigger) (l : list (nat * WakeupTrigger)) :
  In (first_highest b l) (b :: l).
Proof.
  revert b. induction l as [|c rest IH]; intros b; simpl; [left; reflexivity|].
  destruct (_ <? _).
  - right. apply IH.
  - destruct (IH b) as [H | H]; [left; exact H | right; right; exact H].
Qed.

Lemma check_triggers_some (now : datetime) (ts ts' : list WakeupTrigger) (i : nat)
  (t' : WakeupTrigger) :
  check_triggers now ts = (Some (i, t'), ts') ->
  exists t, nth_error ts i = Some t /\ is_due now t = true /\ t' = fire now t
            /\ ts' = set_nth i t' ts.
Proof.
  unfold check_triggers.
  destruct (due_with_index now 0 ts) as [|c rest] eqn:E; [discriminate|].
  pose proof (first_highest_in c rest) as Hin.
  destruct (first_highest c rest) as [j t]. intros H. injection H as <- <- <-.
  rewrite <- E in Hin. apply due_with_index_spec in Hin as [_ [Hn Hd]].
  rewrite Nat.sub_0_r in Hn. exists t. auto.
Qed.

Lemma is_due_disabled (now : datetime) (t : WakeupTrigger) :
  t.(enabled) = false -> is_due now t = false.
Proof. intros H. unfold is_due. rewrite H. reflexivity. Qed.

(** A disabled trigger stays disabled and is never returned. *)
Lemma check_triggers_keeps_disabled (now : datetime) (ts : list WakeupTrigger) (i : nat) :
  (exists t, nth_error ts i = Some t /\ t.(enabled) = false) ->
  option_map fst (fst (check_triggers now ts)) <> Some i /\
  exists t, nth_error (snd (check_triggers now ts)) i = Some t /\ t.(enabled) = false.
Proof.
  intros [t [Hn He]].
  destruct (check_triggers now ts) as [[[j u']|] ts'] eqn:E; simpl.
  - destruct (check_triggers_some now ts ts' j u' E) as [u [Hu [Hd [-> ->]]]].
    assert (Hij : i <> j).
    { intros ->. rewrite Hn in Hu. injection Hu as <-.
      rewrite is_due_disabled in Hd by exact He. discriminate. }
    split; [congruence|]. exists t. rewrite nth_error_set_nth_other by exact Hij. auto.
  - unfold check_triggers in E.
    destruct (due_with_index now 0 ts) as [|c rest]; [injection E as <-|].
    + split; [discriminate | exists t; auto].
    + destruct (first_highest c rest). discriminate.
Qed.

(** ** C9
    Once [check_triggers] has returned a [SCHEDULED] trigger (at position
    [i] of the trigger list), no later call of [check_triggers], at any
    clock readings, returns the trigger at position [i] again. *)
Theorem scheduled_trigger_fires_once (now : datetime) (ts ts' : list WakeupTrigger)
  (i : nat) (t : WakeupTrigger) :
  check_triggers now ts = (Some (i, t), ts') -> t.(type) = SCHEDULED ->
  forall nows : list datetime, ~ In (Some i) (run_checks nows ts').
Proof.
  intros Hc Hty nows.
  destruct (check_triggers_some now ts ts' i t Hc) as [u [Hu [_ [Ht Hts]]]].
  assert (Hdis : exists v, nth_error ts' i = Some v /\ v.(enabled) = false).
  { exists t. split; [rewrite Hts; apply (nth_error_set_nth_same i t u ts Hu)|].
    rewrite Ht in Hty |- *. unfold fire in *. simpl in *. rewrite Hty. reflexivity. }
  clear Hc Hu Ht Hts. revert ts' Hdis.
  induction nows as [|n rest IH]; intros ts' Hdis; simpl; [tauto|].
  destruct (check_triggers_keeps_disabled n ts' i Hdis) as [Hne Hdis'].
  destruct (check_triggers n ts') as [r ts''] eqn:E. simpl in Hne, Hdis'.
  intros [H | H]; [congruence | exact (IH ts'' Hdis' H)].
Qed.

Lemma scheduled_trigger_fires_once_witness :
  check_triggers 10 [example_scheduled]
  = (Some (0%nat, fire 10 example_scheduled), [fire 10 example_scheduled])
  /\ (fire 10 example_scheduled).(type) = SCHEDULED
  /\ ~ In (Some 0%nat) (run_checks [20; 30] [fire 10 example_scheduled]).
Proof.
  assert (H1 : check_triggers 10 [example_scheduled]
               = (Some (0%nat, fire 10 example_scheduled), [fire 10 example_scheduled]))
    by reflexivity.
  assert (H2 : (fire 10 example_scheduled).(type) = SCHEDULED) by reflexivity.
  split; [exact H1 | split; [exact H2|]].
  exact (scheduled_trigger_fires_once 10 [example_scheduled] [fire 10 example_scheduled]
           0 (fire 10 example_scheduled) H1 H2 [20; 30]).
Defined.

(* ------------------------------------------------------------------ *)
(** ** Further properties of the wakeup manager *)

Lemma due_with_index_complete (now : datetime) (ts : list WakeupTrigger) (k j : nat)
  (u : WakeupTrigger) :
  nth_error ts j = Some u -> is_due now u = true -> In ((k + j)%nat, u) (due_with_index now k ts).
Proof.
  revert k j. induction ts as [|v vs IH]; intros k j Hn Hd; [destruct j; discriminate|].
  destruct j as [|j]; simpl in Hn.
  - injection Hn as ->. simpl. rewrite Hd. left. f_equal. lia.
  - simpl. replace (k + S j)%nat with (S k + j)%nat by lia.
    destruct (is_due now v); [right|]; apply IH; assumption.
Qed.

Lemma due_with_index_sorted (now : datetime) (ts : list WakeupTrigger) (k : nat) :
  StronglySorted (fun x y : nat * WakeupTrigger => (fst x < fst y)%nat)
    (due_with_index now k ts)
  /\ Forall (fun x : nat * WakeupTrigger => (k <= fst x)%nat) (due_with_index now k ts).
Proof.
  revert k. induction ts as [|v vs IH]; intros k; simpl; [split; constructor|].
  destruct (IH (S k)) as [Hs Hf].
  assert (Hf' : Forall (fun x : nat * WakeupTrigger => (k <= fst x)%nat)
                  (due_with_index now (S k) vs))
    by (eapply Forall_impl; [|exact Hf]; simpl; intros; lia).
  destruct (is_due now v).
  - split; [constructor; [exact Hs|] | constructor; [simpl; lia | exact Hf']].
    eapply Forall_impl; [|exact Hf]. simpl. intros; lia.
  - split; assumption.
Qed.

(** [first_highest] returns a candidate of highest priority, and every
    earlier candidate has a strictly lower priority. *)
Lemma first_highest_spec (b : nat * WakeupTrigger) (l : list (nat * WakeupTrigger)) :
  StronglySorted (fun x y : nat * WakeupTrigger => (fst x < fst y)%nat) (b :: l) ->
  forall c, In c (b :: l) ->
    (snd c).(priority) <= (snd (first_highest b l)).(priority)
    /\ ((fst c < fst (first_highest b l))%nat ->
        (snd c).(priority) < (snd (first_highest b l)).(priority)).
Proof.
  revert b. induction l as [|c0 rest IH]; intros b Hs c Hc; simpl.
  - destruct Hc as [<- | []]. split; [lia | intros; lia].
  - apply StronglySorted_inv in Hs as [Hs Hb].
    destruct (priority (snd b) <? priority (snd c0)) eqn:E.
    + apply Z.ltb_lt in E. destruct Hc as [<- | Hc]; [|exact (IH c0 Hs c Hc)].
      destruct (IH c0 Hs c0 (or_introl eq_refl)). split; intros; lia.
    + apply Z.ltb_ge in E.
      apply StronglySorted_inv in Hs as [Hs Hc0].
      assert (Hs' : StronglySorted (fun x y : nat * WakeupTrigger => (fst x < fst y)%nat)
                      (b :: rest)).
      { constructor; [exact Hs|]. inversion Hb; assumption. }
      destruct (IH b Hs' b (or_introl eq_refl)) as [Hbp Hbs].
      pose proof (Forall_inv Hb) as Hbc0. pose proof (Forall_inv_tail Hb) as Hbr.
      simpl in Hbc0. rewrite Forall_forall in Hbr.
      destruct Hc as [<- | [<- | Hc]];
        [exact (IH b Hs' b (or_introl eq_refl)) | | exact (IH b Hs' c (or_intror Hc))].
      split; [lia|]. intros Hlt.
      destruct (first_highest_in b rest) as [Hr | Hr].
      * rewrite <- Hr in Hlt. lia.
      * assert (Hbs' := Hbs (Hbr _ Hr)). lia.
Qed.

(** [check_triggers] returns a due trigger of the highest priority among
    the due ones, the first in list order among those of that priority
    (a trigger listed before it that is due has a strictly lower priority),
    fires it in place and leaves the other triggers alone; when no trigger
    is due it returns [None] and changes nothing. *)
Theorem check_triggers_highest_priority (now : datetime) (ts : list WakeupTrigger) :
  match check_triggers now ts with
  | (Some (i, t'), ts') =>
      exists t, nth_error ts i = Some t /\ is_due now t = true /\ t' = fire now t
        /\ ts' = set_nth i t' ts
        /\ forall j u, nth_error ts j = Some u -> is_due now u = true ->
             u.(priority) <= t.(priority) /\ ((j < i)%nat -> u.(priority) < t.(priority))
  | (None, ts') => ts' = ts /\ forallb (fun u => negb (is_due now u)) ts = true
  end.
Proof.
  destruct (check_triggers now ts) as [[[i t']|] ts'] eqn:E.
  - destruct (check_triggers_some now ts ts' i t' E) as [t [Hn [Hd [Ht Hts]]]].
    exists t. split; [exact Hn|]. split; [exact Hd|]. split; [exact Ht|]. split; [exact Hts|].
    intros j u Hu Hdu.
    unfold check_triggers in E.
    destruct (due_with_index now 0 ts) as [|c rest] eqn:Ed; [discriminate|].
    destruct (first_highest c rest) as [i0 t0] eqn:Ef. injection E as <- <- _.
    pose proof (due_with_index_complete now ts 0 j u Hu Hdu) as Hin. simpl in Hin.
    rewrite Ed in Hin.
    pose proof (due_with_index_sorted now ts 0) as [Hs _]. rewrite Ed in Hs.
    pose proof (first_highest_in c rest) as Hr. rewrite Ef in Hr. rewrite <- Ed in Hr.
    apply due_with_index_spec in Hr as [_ [Hr _]]. rewrite Nat.sub_0_r, Hn in Hr.
    injection Hr as <-.
    destruct (first_highest_spec c rest Hs (j, u) Hin) as [H1 H2].
    rewrite Ef in H1, H2. simpl in H1, H2. split; [exact H1 | exact H2].
  - unfold check_triggers in E.
    destruct (due_with_index now 0 ts) as [|c rest] eqn:Ed;
      [|destruct (first_highest c rest); discriminate].
    injection E as <-. split; [reflexivity|].
    apply forallb_forall. intros u Hu. apply In_nth_error in Hu as [j Hj].
    destruct (is_due now u) eqn:Hd; [|reflexivity].
    pose proof (due_with_index_complete now ts 0 j u Hj Hd) as Hin. rewrite Ed in Hin.
    contradiction.
Qed.

(** A [PERIODIC] trigger that [check_triggers] fires at [now] stays in the
    list, enabled, and is due again at a later clock reading exactly when
    at least its interval has passed since [now]. *)
Theorem periodic_trigger_rearms (now : datetime) (ts ts' : list WakeupTrigger) (i : nat)
  (t : WakeupTrigger) :
  check_triggers now ts = (Some (i, t), ts') -> t.(type) = PERIODIC ->
  exists iv, t.(interval) = Some iv /\ iv <> 0 /\ t.(enabled) = true
    /\ nth_error ts' i = Some t
    /\ forall later, is_due later t = (now + iv <=? later).
Proof.
  intros Hc Hty.
  destruct (check_triggers_some now ts ts' i t Hc) as [u [Hu [Hd [Ht Hts]]]].
  assert (Hn : nth_error ts' i = Some t)
    by (rewrite Hts; apply (nth_error_set_nth_same i t u ts Hu)).
  subst t. unfold fire in *. simpl in *.
  unfold is_due in Hd. destruct (enabled u) eqn:He; [|discriminate]. simpl in Hd.
  rewrite Hty in Hd.
  destruct (interval u) as [iv|] eqn:Hi; [|discriminate].
  destruct (iv =? 0) eqn:Hz; [discriminate|]. apply Z.eqb_neq in Hz.
  exists iv. split; [reflexivity|]. split; [exact Hz|]. split; [rewrite ?Hty; try exact He; reflexivity|].
  split; [exact Hn|]. intros later. unfold is_due. simpl. rewrite ?Hty, ?He. simpl.
  rewrite ?Hi. destruct (iv =? 0) eqn:Hz2; [apply Z.eqb_eq in Hz2; contradiction|]. simpl.
  destruct (iv <=? later - now) eqn:E1; destruct (now + iv <=? later) eqn:E2; try reflexivity;
    [apply Z.leb_le in E1; apply Z.leb_gt in E2 | apply Z.leb_gt in E1; apply Z.leb_le in E2];
    lia.
Qed.

Lemma periodic_trigger_rearms_witness :
  check_triggers 10 [example_periodic] = (Some (0%nat, fire 10 example_periodic),
                                          [fire 10 example_periodic])
  /\ (fire 10 example_periodic).(type) = PERIODIC
  /\ exists iv, (fire 10 example_periodic).(interval) = Some iv /\ iv <> 0
       /\ (fire 10 example_periodic).(enabled) = true
       /\ nth_error [fire 10 example_periodic] 0 = Some (fire 10 example_periodic)
       /\ forall later, is_due later (fire 10 example_periodic) = (10 + iv <=? later).
Proof.
  assert (H1 : check_triggers 10 [example_periodic]
               = (Some (0%nat, fire 10 example_periodic), [fire 10 example_periodic]))
    by reflexivity.
  assert (H2 : (fire 10 example_periodic).(type) = PERIODIC) by reflexivity.
  split; [exact H1 | split; [exact H2|]].
  exact (periodic_trigger_rearms 10 [example_periodic] [fire 10 example_periodic] 0
           (fire 10 example_periodic) H1 H2).
Defined.

Lemma is_active_day_in (sch : WakeupSchedule) (d : Z) :
  is_active_day sch d = true <-> In (weekday d) sch.(active_days).
Proof.
  unfold is_active_day. rewrite existsb_exists. split.
  - intros [x [Hx He]]. apply Z.eqb_eq in He. rewrite He. exact Hx.
  - intros H. exists (weekday d). split; [exact H | apply Z.eqb_refl].
Qed.

Lemma weekday_range (d : Z) : 0 <= weekday d < 7.
Proof. unfold weekday. apply Z.mod_pos_bound. lia. Qed.

(** Each weekday comes up among the seven days after [today]. *)
Lemma weekday_ahead (today w : Z) :
  0 <= w < 7 -> exists k, 1 <= k <= 7 /\ weekday (today + k) = w.
Proof.
  intros Hw. exists (1 + (w - today - 4) mod 7).
  pose proof (Z.mod_pos_bound (w - today - 4) 7 ltac:(lia)). split; [lia|].
  unfold weekday.
  assert (Hm : (w - today - 4) mod 7 = w - today - 4 - 7 * ((w - today - 4) / 7))
    by (apply Z.mod_eq; lia).
  rewrite Hm.
  replace (today + (1 + (w - today - 4 - 7 * ((w - today - 4) / 7))) + 3)
    with (w + (- ((w - today - 4) / 7)) * 7) by lia.
  rewrite Z.mod_add by lia. apply Z.mod_small. exact Hw.
Qed.

(** [get_next_wakeup] returns [None] exactly when [active_days] names no
    weekday 0..6: as soon as one weekday is active, the search over the
    next seven days finds it. *)
Theorem get_next_wakeup_none_iff (sch : WakeupSchedule) (now : datetime) :
  get_next_wakeup sch now = None <-> forall w, 0 <= w < 7 -> ~ In w sch.(active_days).
Proof.
  unfold get_next_wakeup. split.
  - intros H w Hw Hin.
    destruct (weekday_ahead (Core.date_of now) w Hw) as [k [Hk Hwk]].
    destruct (_ && _); [discriminate|]. destruct (_ && _); [discriminate|].
    destruct (find _ _) eqn:Ef; [discriminate|].
    assert (Hf := find_none _ _ Ef k ltac:(simpl; lia)).
    assert (Hk' : k = 1 \/ k = 2 \/ k = 3 \/ k = 4 \/ k = 5 \/ k = 6 \/ k = 7) by lia.
    simpl in Hf. rewrite <- Hwk in Hin. apply is_active_day_in in Hin. congruence.
  - intros H.
    assert (Hna : forall d, is_active_day sch d = false).
    { intros d. destruct (is_active_day sch d) eqn:E; [|reflexivity].
      apply is_active_day_in in E. exfalso. exact (H _ (weekday_range d) E). }
    rewrite !Hna, !andb_false_r. simpl. rewrite !Hna. reflexivity.
Qed.

(** With morning and evening times inside the day, a next wakeup is
    strictly after [now] and less than eight days ahead. *)
Theorem get_next_wakeup_ahead (sch : WakeupSchedule) (now w : datetime) :
  0 <= sch.(morning_wakeup) < day_us -> 0 <= sch.(evening_wakeup) < day_us ->
  get_next_wakeup sch now = Some w -> now < w < now + 8 * day_us.
Proof.
  intros Hm He. unfold get_next_wakeup. cbv zeta.
  pose proof (Z.mul_div_le now 86400000000 ltac:(lia)) as Hd1.
  pose proof (Z.mod_pos_bound now 86400000000 ltac:(lia)) as Hd2.
  pose proof (Z.div_mod now 86400000000 ltac:(lia)) as Hd3.
  unfold combine, Core.date_of, day_us in *. intros H.
  destruct ((now <? now / 86400000000 * 86400000000 + morning_wakeup sch)
            && is_active_day sch (now / 86400000000)) eqn:E1.
  { injection H as <-. apply andb_true_iff in E1 as [E1 _].
    apply Z.ltb_lt in E1. lia. }
  destruct ((now <? now / 86400000000 * 86400000000 + evening_wakeup sch)
            && is_active_day sch (now / 86400000000)) eqn:E2.
  { injection H as <-. apply andb_true_iff in E2 as [E2 _].
    apply Z.ltb_lt in E2. lia. }
  destruct (find _ _) as [k|] eqn:Ef; [|discriminate].
  injection H as <-.
  apply find_some in Ef as [Hk _]. simpl in Hk.
  assert (1 <= k <= 7) by (repeat (destruct Hk as [<- | Hk]; [lia|]); destruct Hk).
  nia.
Qed.

Lemma get_next_wakeup_ahead_witness :
  0 <= default_schedule.(morning_wakeup) < day_us
  /\ 0 <= default_schedule.(evening_wakeup) < day_us
  /\ get_next_wakeup default_schedule 0 = Some (9 * hour_us)
  /\ 0 < 9 * hour_us < 0 + 8 * day_us.
Proof.
  assert (H1 : 0 <= default_schedule.(morning_wakeup) < day_us)
    by (simpl; unfold hour_us, day_us; lia).
  assert (H2 : 0 <= default_schedule.(evening_wakeup) < day_us)
    by (simpl; unfold hour_us, day_us; lia).
  assert (H3 : get_next_wakeup default_schedule 0 = Some (9 * hour_us)) by reflexivity.
  split; [exact H1 | split; [exact H2 | split; [exact H3|]]].
  exact (get_next_wakeup_ahead default_schedule 0 (9 * hour_us) H1 H2 H3).
Defined.

(** [calculate_sleep_duration] always lies between 5 minutes and 24 hours,
    whatever the schedule (the 1-hour default when there is no next
    wakeup). *)
Theorem sleep_duration_clamped (sch : WakeupSchedule) (now : datetime) :
  _min_sleep_duration <= calculate_sleep_duration sch now <= _max_sleep_duration.
Proof.
  unfold calculate_sleep_duration, _min_sleep_duration, _max_sleep_duration, hour_us, minute_us.
  destruct (get_next_wakeup sch now) as [nw|]; [|lia].
  destruct (_ <? _) eqn:E1; [lia|]. apply Z.ltb_ge in E1.
  destruct (_ <? _) eqn:E2; [lia|]. apply Z.ltb_ge in E2. lia.
Qed.

Lemma append_inj (p x y : string) : (p ++ x)%string = (p ++ y)%string -> x = y.
Proof. induction p as [|a p IH]; simpl; [tauto|]. intros H. injection H. exact IH. Qed.

Lemma uint_to_string_inj (a b : Decimal.uint) : uint_to_string a = uint_to_string b -> a = b.
Proof.
  revert b. induction a; intros b H; destruct b; simpl in H; try discriminate;
    try reflexivity; injection H as H; f_equal; apply IHa, H.
Qed.

Lemma trigger_id_inj (a b : nat) :
  ("trigger_" ++ str_of_nat a)%string = ("trigger_" ++ str_of_nat b)%string -> a = b.
Proof.
  intros H. apply append_inj, uint_to_string_inj in H.
  rewrite <- (DecimalNat.Unsigned.of_to a), <- (DecimalNat.Unsigned.of_to b), H. reflexivity.
Qed.

Lemma ids_ok_add_new (mk : string -> WakeupTrigger) (m : WakeupManager) :
  (forall tid, (mk tid).(id) = tid) -> ids_ok m -> ids_ok (snd (add_new_trigger mk m)).
Proof.
  intros Hmk [Hnd Hall]. unfold ids_ok, add_new_trigger, _next_trigger_id, add_trigger.
  cbn [fst snd _triggers _trigger_id_counter id].
  split.
  - rewrite map_app. simpl. rewrite Hmk. apply NoDup_app; [exact Hnd | constructor; [tauto|constructor] |].
    intros x Hx [Hy | []]. apply in_map_iff in Hx as [u [<- Hu]].
    destruct (Hall u Hu) as [j [Hj Hid]]. rewrite Hid in Hy.
    apply trigger_id_inj in Hy. lia.
  - intros u Hu. apply in_app_or in Hu as [Hu | [<- | []]].
    + destruct (Hall u Hu) as [j [Hj Hid]]. exists j. split; [lia | exact Hid].
    + exists (S (_trigger_id_counter m)). split; [lia | apply Hmk].
Qed.

Lemma pop_first_trigger_spec (tid : string) (l l' : list WakeupTrigger) :
  pop_first_trigger tid l = Some l' ->
  exists pre t post, l = pre ++ t :: post /\ l' = pre ++ post /\ t.(id) = tid
    /\ existsb (fun u => String.eqb u.(id) tid) pre = false.
Proof.
  revert l'. induction l as [|u us IH]; intros l' H; simpl in H; [discriminate|].
  destruct (String.eqb (id u) tid) eqn:E.
  - injection H as <-. exists [], u, us. apply String.eqb_eq in E. auto.
  - destruct (pop_first_trigger tid us) as [r|] eqn:Er; [|discriminate].
    injection H as <-. destruct (IH r eq_refl) as [pre [t [post [H1 [H2 [H3 H4]]]]]].
    exists (u :: pre), t, post. subst. simpl. rewrite E. auto.
Qed.

Lemma map_id_set_nth (i : nat) (t : WakeupTrigger) (ts : list WakeupTrigger) :
  (forall u, nth_error ts i = Some u -> u.(id) = t.(id)) ->
  map id (set_nth i t ts) = map id ts.
Proof.
  revert i. induction ts as [|v vs IH]; intros i H; [destruct i; reflexivity|].
  destruct i as [|i]; simpl.
  - rewrite (H v eq_refl). reflexivity.
  - f_equal. apply IH. exact H.
Qed.

Lemma in_set_nth (i : nat) (t u : WakeupTrigger) (ts : list WakeupTrigger) :
  In u (set_nth i t ts) -> u = t \/ In u ts.
Proof.
  revert i. induction ts as [|v vs IH]; intros i H; [destruct i; destruct H|].
  destruct i as [|i]; simpl in H.
  - destruct H as [<- | H]; [left; reflexivity | right; right; exact H].
  - destruct H as [<- | H]; [right; left; reflexivity|].
    destruct (IH i H); [left | right; right]; assumption.
Qed.

Lemma ids_ok_run_mop (op : ManagerOp) (m : WakeupManager) : ids_ok m -> ids_ok (run_mop op m).
Proof.
  intros Hok. destruct op as [when why p | ty nm st iv p why | tid | now |]; cbn [run_mop].
  - unfold schedule_wakeup. apply ids_ok_add_new; [reflexivity | exact Hok].
  - unfold create_trigger. apply ids_ok_add_new; [reflexivity | exact Hok].
  - destruct Hok as [Hnd Hall]. unfold ids_ok, remove_trigger.
    destruct (pop_first_trigger tid (_triggers m)) as [l'|] eqn:E; [|split; assumption].
    apply pop_first_trigger_spec in E as [pre [t [post [Hl [Hl' _]]]]].
    simpl. rewrite Hl in Hnd, Hall. rewrite Hl'. split.
    + rewrite map_app in *. simpl in Hnd. apply NoDup_remove_1 in Hnd. exact Hnd.
    + intros u Hu. apply Hall. apply in_app_or in Hu as [Hu | Hu]; apply in_or_app;
        [left | right; right]; exact Hu.
  - destruct Hok as [Hnd Hall]. unfold ids_ok, check_manager.
    destruct (check_triggers now (_triggers m)) as [[[i t']|] ts'] eqn:E;
      cbn [fst snd _triggers _trigger_id_counter];
      [|unfold check_triggers in E; destruct (due_with_index now 0 (_triggers m)) as [|c rest];
        [injection E as <-; split; assumption | destruct (first_highest c rest); discriminate]].
    destruct (check_triggers_some now _ ts' i t' E) as [t [Hn [_ [Ht Hts]]]].
    assert (Hid : forall u, nth_error (_triggers m) i = Some u -> u.(id) = t'.(id))
      by (intros u Hu; rewrite Hn in Hu; injection Hu as <-; rewrite Ht; reflexivity).
    subst ts'. split.
    + rewrite map_id_set_nth by exact Hid. exact Hnd.
    + intros u Hu. apply in_set_nth in Hu as [-> | Hu]; [|apply Hall, Hu].
      rewrite <- (Hid t Hn). apply Hall. apply nth_error_In in Hn. exact Hn.
  - destruct Hok as [Hnd Hall]. unfold ids_ok, _next_trigger_id.
    cbn [fst snd _triggers _trigger_id_counter]. split; [exact Hnd|].
    intros u Hu. destruct (Hall u Hu) as [j [Hj Hid]]. exists j. split; [lia | exact Hid].
Qed.

Lemma ids_ok_setup (sch : WakeupSchedule) (now : datetime) :
  ids_ok (_setup_default_triggers sch now init_manager).
Proof.
  unfold _setup_default_triggers. cbv zeta.
  repeat (apply ids_ok_add_new; [reflexivity|]).
  split; [constructor | intros u []].
Qed.

Lemma ids_ok_run_mops (ops : list ManagerOp) (m : WakeupManager) :
  ids_ok m -> ids_ok (run_mops ops m).
Proof.
  unfold run_mops. revert m. induction ops as [|op rest IH]; intros m H; simpl; [exact H|].
  apply IH, ids_ok_run_mop, H.
Qed.

(** Trigger ids stay unique: after [_setup_default_triggers] and any run of
    [schedule_wakeup], [create_trigger], [remove_trigger], [check_triggers]
    and unused [_next_trigger_id] calls, no two triggers share an id,
    because every id is ["trigger_n"] for a counter value [n] never handed
    out before. *)
Theorem trigger_ids_unique (sch : WakeupSchedule) (now : datetime) (ops : list ManagerOp) :
  NoDup (map id (run_mops ops (_setup_default_triggers sch now init_manager)).(_triggers)).
Proof. apply ids_ok_run_mops, ids_ok_setup. Qed.

(** [schedule_wakeup] then [get_trigger] / [remove_trigger] round trip:
    in a manager set up and used as the code does, [get_trigger] on the id
    that [schedule_wakeup] returns finds the new [SCHEDULED] trigger, and
    [remove_trigger] on it returns [true] and gives back the old trigger
    list. *)
Theorem schedule_wakeup_round_trip (sch : WakeupSchedule) (now : datetime)
  (ops : list ManagerOp) (when : datetime) (why : string) (p : Z) :
  let m := run_mops ops (_setup_default_triggers sch now init_manager) in
  get_trigger (fst (schedule_wakeup when why p m)) (snd (schedule_wakeup when why p m))
  = Some (mkWakeupTrigger (fst (schedule_wakeup when why p m)) SCHEDULED
            ("Scheduled: " ++ why) true (Some when) None None None p why)
  /\ remove_trigger (fst (schedule_wakeup when why p m)) (snd (schedule_wakeup when why p m))
     = (true, mkWakeupManager m.(_triggers) (S m.(_trigger_id_counter))).
Proof.
  intros m. assert (Hok : ids_ok m) by apply ids_ok_run_mops, ids_ok_setup.
  destruct Hok as [_ Hall].
  set (tid := ("trigger_" ++ str_of_nat (S (_trigger_id_counter m)))%string).
  assert (Hfresh : forall u, In u (_triggers m) -> String.eqb u.(id) tid = false).
  { intros u Hu. destruct (Hall u Hu) as [j [Hj Hid]]. apply String.eqb_neq.
    rewrite Hid. intros He. apply trigger_id_inj in He. lia. }
  unfold schedule_wakeup, add_new_trigger, _next_trigger_id, add_trigger. cbn [fst snd].
  fold tid. simpl _triggers. simpl id.
  split.
  - unfold get_trigger. simpl _triggers. clear Hall.
    induction (_triggers m) as [|u us IH]; simpl.
    + rewrite String.eqb_refl. reflexivity.
    + rewrite (Hfresh u (or_introl eq_refl)). apply IH.
      intros v Hv. apply Hfresh. right. exact Hv.
  - unfold remove_trigger. simpl _triggers. simpl _trigger_id_counter.
    match goal with
    | |- context [pop_first_trigger ?x (_triggers m ++ [?t])] =>
        replace (pop_first_trigger x (_triggers m ++ [t])) with (Some (_triggers m))
    end; [reflexivity|].
    clear Hall. induction (_triggers m) as [|u us IH]; cbn [pop_first_trigger app id].
    + rewrite String.eqb_refl. reflexivity.
    + rewrite (Hfresh u (or_introl eq_refl)). rewrite <- IH; [reflexivity|].
      intros v Hv. apply Hfresh. right. exact Hv.
Qed.

End WakeupProofs.

(* ------------------------------------------------------------------ *)
(** * The agent: the core driving the scheduler and the wakeup manager *)

Module AgentProofs.
Import Agent.

Lemma agent_wake_up_sleeping (why : string) (p : option (option datetime))
  (t1 t2 t3 : datetime) (fresh : Scheduler.IdSupply) (a : Agent) :
  a.(core).(Core._state) = Core.SLEEPING ->
  exists c', wake_up why p t1 t2 t3 fresh a
    = (Return true, mkAgent c' (snd (Scheduler.ensure_daily_tasks t2 fresh (a.(next_fresh), a.(sched))))
                      a.(wakeup) (fst (Scheduler.ensure_daily_tasks t2 fresh (a.(next_fresh), a.(sched)))))
    /\ c'.(Core._state) = Core.AWAKE /\ c'.(Core._context).(Core.last_wakeup) = Some t3.
Proof.
  destruct a as [[st trs ctx] s w k]. cbn [core Core._state]. intros ->.
  unfold wake_up, Core._transition_to, Core._on_wakeup.
  cbn -[Scheduler.ensure_daily_tasks Core.keep_last_100].
  destruct (Scheduler.ensure_daily_tasks t2 fresh (k, s)) as [k' s'].
  cbn -[Core.keep_last_100]. eexists. split; [reflexivity|]. split; reflexivity.
Qed.

Lemma agent_execute_awake (task : Scheduler.ProactiveTask) (o : Scheduler.ExecOutcome)
  (t0 ts td t3 : datetime) (nid : string) (a : Agent) :
  a.(core).(Core._state) = Core.AWAKE ->
  exists c', _execute_task task o t0 ts td t3 nid a
    = (Return tt, mkAgent c' (snd (Scheduler.execute_task task o ts td nid a.(sched)))
                    a.(wakeup) a.(next_fresh))
    /\ c'.(Core._state) = Core.AWAKE
    /\ c'.(Core._context).(Core.tasks_completed_today)
       = a.(core).(Core._context).(Core.tasks_completed_today) + 1
    /\ c'.(Core._context).(Core.last_wakeup) = Some t3
    /\ c'.(Core._transitions)
       = Core.keep_last_100
           (Core.keep_last_100
              (a.(core).(Core._transitions)
               ++ [Core.mkStateTransition Core.AWAKE Core.WORKING t0
                     ("Executing task: " ++ task.(Scheduler.title))%string])
            ++ [Core.mkStateTransition Core.WORKING Core.AWAKE t3 "Task completed"]).
Proof.
  destruct a as [[st trs ctx] s w k]. cbn [core Core._state]. intros ->.
  unfold _execute_task, Core._transition_to, bump_completed.
  cbn -[Scheduler.execute_task Core.keep_last_100].
  eexists. split; [reflexivity|]. split; [reflexivity|]. split; [reflexivity|].
  split; reflexivity.
Qed.

Lemma agent_go_to_sleep_awake (why : string) (t1 t2 : datetime) (c : Core.ProactiveCore) :
  c.(Core._state) = Core.AWAKE ->
  (snd (Core.go_to_sleep why t1 t2 c)).(Core._state) = Core.SLEEPING.
Proof.
  destruct c as [st trs ctx]. cbn [Core._state]. intros ->.
  unfold Core.go_to_sleep, Core.bind, Core.get_state, Core._transition_to,
    Core._on_going_to_sleep, Core.ret.
  cbn -[Core.keep_last_100]. reflexivity.
Qed.

Lemma due_with_index_nil (now : datetime) (k : nat) (ts : list Wakeup.WakeupTrigger) :
  Wakeup.due_with_index now k ts = [] <-> existsb (Wakeup.is_due now) ts = false.
Proof.
  revert k. induction ts as [|t rest IH]; intros k; cbn; [tauto|].
  destruct (Wakeup.is_due now t); cbn; [split; discriminate | apply IH].
Qed.

Lemma check_manager_none (now : datetime) (m : Wakeup.WakeupManager) :
  fst (Wakeup.check_manager now m) = None ->
  Wakeup.check_manager now m = (None, m) /\ existsb (Wakeup.is_due now) m.(Wakeup._triggers) = false.
Proof.
  unfold Wakeup.check_manager, Wakeup.check_triggers.
  destruct (Wakeup.due_with_index now 0 (Wakeup._triggers m)) as [|c rest] eqn:E.
  - intros _. apply due_with_index_nil in E. split; [destruct m; reflexivity | exact E].
  - destruct (Wakeup.first_highest c rest). discriminate.
Qed.

Lemma check_manager_quiet (now : datetime) (m : Wakeup.WakeupManager) :
  existsb (Wakeup.is_due now) m.(Wakeup._triggers) = false ->
  Wakeup.check_manager now m = (None, m).
Proof.
  intros H. apply (due_with_index_nil now 0) in H.
  unfold Wakeup.check_manager, Wakeup.check_triggers. rewrite H. destruct m; reflexivity.
Qed.

Lemma main_loop_step_stable (fresh : Scheduler.IdSupply) (i : LoopInputs) (a : Agent) :
  loop_state_ok a = true -> loop_state_ok (main_loop_step fresh i a) = true.
Proof.
  unfold loop_state_ok, main_loop_step. destruct (in_wake i) as [[w1 w2] w3].
  destruct (Core._state (core a)) eqn:Hs; try discriminate; intros _.
  - destruct (Wakeup.check_manager (in_now i) (wakeup a)) as [[t|] m] eqn:Ec.
    + destruct (agent_wake_up_sleeping (Wakeup.reason t) (in_profile i) w1 w2 w3 fresh
                  (mkAgent (core a) (sched a) m (next_fresh a)) Hs) as [c' [-> [Hc _]]].
      cbn [snd core]. rewrite Hc. reflexivity.
    + cbn [sched]. destruct (Scheduler.has_due_tasks (in_now i) (sched a)).
      * destruct (agent_wake_up_sleeping "Due tasks in queue" (in_profile i) w1 w2 w3 fresh
                    (mkAgent (core a) (sched a) m (next_fresh a)) Hs) as [c' [-> [Hc _]]].
        cbn [snd core]. rewrite Hc. reflexivity.
      * cbn [core]. rewrite Hs. reflexivity.
  - destruct (Scheduler.get_next_task (in_now i) (sched a)) as [task|].
    + destruct (in_exec i) as [[[e0 e1] e2] e3].
      destruct (agent_execute_awake task (in_outcome i) e0 e1 e2 e3 (in_new_id i) a Hs)
        as [c' [-> [Hc _]]].
      cbn [snd core]. rewrite Hc. reflexivity.
    + destruct (Core._should_sleep (in_now i) (core a)) as [[[|]|e] c1].
      * destruct (in_sleep i) as [s1 s2]. cbn [set_core core].
        rewrite (agent_go_to_sleep_awake "No pending tasks" s1 s2 (core a) Hs). reflexivity.
      * rewrite Hs. reflexivity.
      * rewrite Hs. reflexivity.
Qed.

(** [_execute_task] by state: from [AWAKE] it moves to [WORKING] and back to
    [AWAKE], logs both transitions, hands the task to the scheduler's
    [execute_task] and counts it in [tasks_completed_today], whether the
    executor succeeded or failed; from any other state the move to
    [WORKING] is refused, the [ValueError] propagates, and neither the
    core nor the queue changes. *)
Theorem agent_execute_task_by_state (task : Scheduler.ProactiveTask)
  (o : Scheduler.ExecOutcome) (t0 ts td t3 : datetime) (nid : string) (a : Agent) :
  match a.(core).(Core._state) with
  | Core.AWAKE =>
      exists c', _execute_task task o t0 ts td t3 nid a
        = (Return tt, mkAgent c' (snd (Scheduler.execute_task task o ts td nid a.(sched)))
                        a.(wakeup) a.(next_fresh))
        /\ c'.(Core._state) = Core.AWAKE
        /\ c'.(Core._context).(Core.tasks_completed_today)
           = a.(core).(Core._context).(Core.tasks_completed_today) + 1
        /\ c'.(Core._transitions)
           = Core.keep_last_100
               (Core.keep_last_100
                  (a.(core).(Core._transitions)
                   ++ [Core.mkStateTransition Core.AWAKE Core.WORKING t0
                         ("Executing task: " ++ task.(Scheduler.title))%string])
                ++ [Core.mkStateTransition Core.WORKING Core.AWAKE t3 "Task completed"])
  | s => _execute_task task o t0 ts td t3 nid a
         = (Raise (ValueError (Core.invalid_transition_msg s Core.WORKING)), a)
  end.
Proof.
  destruct (Core._state (core a)) eqn:Hs.
  3: { destruct (agent_execute_awake task o t0 ts td t3 nid a Hs) as [c' [H1 [H2 [H3 [_ H5]]]]].
       exists c'. auto. }
  all: destruct a as [[st trs ctx] s w k]; cbn [core Core._state] in Hs; subst st;
       reflexivity.
Qed.

(** A pass of [_main_loop] on a sleeping agent with no due trigger and no
    due task changes nothing. *)
Theorem main_loop_sleeping_quiet (fresh : Scheduler.IdSupply) (i : LoopInputs) (a : Agent) :
  a.(core).(Core._state) = Core.SLEEPING ->
  existsb (Wakeup.is_due i.(in_now)) a.(wakeup).(Wakeup._triggers) = false ->
  Scheduler.has_due_tasks i.(in_now) a.(sched) = false ->
  main_loop_step fresh i a = a.
Proof.
  intros Hs Hw Ht. unfold main_loop_step. destruct (in_wake i) as [[w1 w2] w3].
  rewrite Hs, (check_manager_quiet _ _ Hw). cbn [sched]. rewrite Ht.
  destruct a; reflexivity.
Qed.

Lemma main_loop_sleeping_quiet_witness :
  Core._state (core idle_agent) = Core.SLEEPING
  /\ existsb (Wakeup.is_due 0) (Wakeup._triggers (wakeup idle_agent)) = false
  /\ Scheduler.has_due_tasks 0 (sched idle_agent) = false
  /\ main_loop_step Scheduler.fixed_ids (example_inputs 0) idle_agent = idle_agent.
Proof.
  assert (H1 : Core._state (core idle_agent) = Core.SLEEPING) by reflexivity.
  assert (H2 : existsb (Wakeup.is_due 0) (Wakeup._triggers (wakeup idle_agent)) = false)
    by reflexivity.
  assert (H3 : Scheduler.has_due_tasks 0 (sched idle_agent) = false) by reflexivity.
  split; [exact H1 | split; [exact H2 | split; [exact H3|]]].
  exact (main_loop_sleeping_quiet Scheduler.fixed_ids (example_inputs 0) idle_agent H1 H2 H3).
Defined.

(** A pass of [_main_loop] on a sleeping agent with a due trigger or a due
    task wakes it: the core ends [AWAKE], with [last_wakeup] set to the
    clock read of the final transition. *)
Theorem main_loop_sleeping_wakes (fresh : Scheduler.IdSupply) (i : LoopInputs) (a : Agent) :
  a.(core).(Core._state) = Core.SLEEPING ->
  existsb (Wakeup.is_due i.(in_now)) a.(wakeup).(Wakeup._triggers) = true
  \/ Scheduler.has_due_tasks i.(in_now) a.(sched) = true ->
  (main_loop_step fresh i a).(core).(Core._state) = Core.AWAKE
  /\ (main_loop_step fresh i a).(core).(Core._context).(Core.last_wakeup) = Some (snd i.(in_wake)).
Proof.
  intros Hs Hdue. unfold main_loop_step. destruct (in_wake i) as [[w1 w2] w3]. cbn [snd].
  rewrite Hs.
  destruct (Wakeup.check_manager (in_now i) (wakeup a)) as [[t|] m] eqn:Ec.
  - destruct (agent_wake_up_sleeping (Wakeup.reason t) (in_profile i) w1 w2 w3 fresh
                (mkAgent (core a) (sched a) m (next_fresh a)) Hs) as [c' [-> [H1 H2]]].
    split; assumption.
  - destruct (check_manager_none (in_now i) (wakeup a) ltac:(rewrite Ec; reflexivity))
      as [_ Hq].
    cbn [sched]. destruct Hdue as [Hdue | Hdue]; [congruence|]. rewrite Hdue.
    destruct (agent_wake_up_sleeping "Due tasks in queue" (in_profile i) w1 w2 w3 fresh
                (mkAgent (core a) (sched a) m (next_fresh a)) Hs) as [c' [-> [H1 H2]]].
    split; assumption.
Qed.

Lemma main_loop_sleeping_wakes_witness :
  Core._state (core init_agent) = Core.SLEEPING
  /\ (existsb (Wakeup.is_due 0) (Wakeup._triggers (wakeup init_agent)) = true
      \/ Scheduler.has_due_tasks 0 (sched init_agent) = true)
  /\ (main_loop_step Scheduler.fixed_ids (example_inputs 0) init_agent).(core).(Core._state)
     = Core.AWAKE
  /\ (main_loop_step Scheduler.fixed_ids (example_inputs 0) init_agent).(core).(Core._context)
       .(Core.last_wakeup) = Some (snd (example_inputs 0).(in_wake)).
Proof.
  assert (H1 : Core._state (core init_agent) = Core.SLEEPING) by reflexivity.
  assert (H2 : existsb (Wakeup.is_due 0) (Wakeup._triggers (wakeup init_agent)) = true
               \/ Scheduler.has_due_tasks 0 (sched init_agent) = true)
    by (left; vm_compute; reflexivity).
  split; [exact H1 | split; [exact H2|]].
  exact (main_loop_sleeping_wakes Scheduler.fixed_ids (example_inputs 0) init_agent H1 H2).
Defined.

(** A pass of [_main_loop] on an awake agent with a due task executes the
    first due task of the queue ([get_next_task]) through the scheduler,
    counts it, and leaves the core [AWAKE] and the triggers alone. *)
Theorem main_loop_awake_runs_next (fresh : Scheduler.IdSupply) (i : LoopInputs) (a : Agent)
  (task : Scheduler.ProactiveTask) :
  a.(core).(Core._state) = Core.AWAKE ->
  Scheduler.get_next_task i.(in_now) a.(sched) = Some task ->
  let '(e0, e1, e2, e3) := i.(in_exec) in
  (main_loop_step fresh i a).(sched)
    = snd (Scheduler.execute_task task i.(in_outcome) e1 e2 i.(in_new_id) a.(sched))
  /\ (main_loop_step fresh i a).(wakeup) = a.(wakeup)
  /\ (main_loop_step fresh i a).(core).(Core._state) = Core.AWAKE
  /\ (main_loop_step fresh i a).(core).(Core._context).(Core.tasks_completed_today)
     = a.(core).(Core._context).(Core.tasks_completed_today) + 1.
Proof.
  intros Hs Hn. unfold main_loop_step. destruct (in_wake i) as [[w1 w2] w3].
  destruct (in_exec i) as [[[e0 e1] e2] e3]. rewrite Hs, Hn.
  destruct (agent_execute_awake task (in_outcome i) e0 e1 e2 e3 (in_new_id i) a Hs)
    as [c' [-> [H1 [H2 _]]]].
  cbn [snd sched wakeup core]. auto.
Qed.

Lemma main_loop_awake_runs_next_witness :
  Core._state (core awake_agent) = Core.AWAKE
  /\ Scheduler.get_next_task 0 (sched awake_agent) = Some (Scheduler.example_task "t1" 5 None)
  /\ (main_loop_step Scheduler.fixed_ids (example_inputs 0) awake_agent).(sched)
     = snd (Scheduler.execute_task (Scheduler.example_task "t1" 5 None)
              (Scheduler.ExecOk "done") 0 0 "task_new" (sched awake_agent))
  /\ (main_loop_step Scheduler.fixed_ids (example_inputs 0) awake_agent).(wakeup)
     = wakeup awake_agent
  /\ (main_loop_step Scheduler.fixed_ids (example_inputs 0) awake_agent).(core).(Core._state)
     = Core.AWAKE
  /\ (main_loop_step Scheduler.fixed_ids (example_inputs 0) awake_agent).(core).(Core._context)
       .(Core.tasks_completed_today)
     = (core awake_agent).(Core._context).(Core.tasks_completed_today) + 1.
Proof.
  assert (H1 : Core._state (core awake_agent) = Core.AWAKE) by reflexivity.
  assert (H2 : Scheduler.get_next_task 0 (sched awake_agent)
               = Some (Scheduler.example_task "t1" 5 None)) by reflexivity.
  split; [exact H1 | split; [exact H2|]].
  exact (main_loop_awake_runs_next Scheduler.fixed_ids (example_inputs 0) awake_agent
           (Scheduler.example_task "t1" 5 None) H1 H2).
Defined.

(** A pass of [_main_loop] on an awake agent with no due task touches
    neither the queue nor the triggers, and puts the core to sleep exactly
    when [_should_sleep] says so. *)
Theorem main_loop_awake_idle (fresh : Scheduler.IdSupply) (i : LoopInputs) (a : Agent) :
  a.(core).(Core._state) = Core.AWAKE ->
  Scheduler.get_next_task i.(in_now) a.(sched) = None ->
  (main_loop_step fresh i a).(sched) = a.(sched)
  /\ (main_loop_step fresh i a).(wakeup) = a.(wakeup)
  /\ (main_loop_step fresh i a).(core).(Core._state)
     = match fst (Core._should_sleep i.(in_now) a.(core)) with
       | Return true => Core.SLEEPING
       | _ => Core.AWAKE
       end.
Proof.
  intros Hs Hn. unfold main_loop_step. destruct (in_wake i) as [[w1 w2] w3].
  rewrite Hs, Hn.
  destruct (Core._should_sleep (in_now i) (core a)) as [[[|]|e] c1]; cbn [fst].
  - destruct (in_sleep i) as [s1 s2]. cbn [set_core core sched wakeup].
    split; [reflexivity | split; [reflexivity|]].
    apply agent_go_to_sleep_awake, Hs.
  - auto.
  - auto.
Qed.

Lemma main_loop_awake_idle_witness :
  Core._state (core awake_idle_agent) = Core.AWAKE
  /\ Scheduler.get_next_task (3 + 6 * minute_us) (sched awake_idle_agent) = None
  /\ (main_loop_step Scheduler.fixed_ids (example_inputs (3 + 6 * minute_us)) awake_idle_agent)
       .(core).(Core._state) = Core.SLEEPING.
Proof.
  assert (H1 : Core._state (core awake_idle_agent) = Core.AWAKE) by reflexivity.
  assert (H2 : Scheduler.get_next_task (3 + 6 * minute_us) (sched awake_idle_agent) = None)
    by reflexivity.
  split; [exact H1 | split; [exact H2|]].
  destruct (main_loop_awake_idle Scheduler.fixed_ids (example_inputs (3 + 6 * minute_us))
              awake_idle_agent H1 H2) as [_ [_ H3]].
  rewrite H3. reflexivity.
Defined.

(** [_main_loop] only rests in [SLEEPING] or [AWAKE]: started in one of
    them, every run of passes ends in one of them ([WAKING_UP], [WORKING]
    and [GOING_TO_SLEEP] are only passed through within a pass). *)
Theorem main_loop_rests_sleeping_or_awake (fresh : Scheduler.IdSupply)
  (is : list LoopInputs) (a : Agent) :
  loop_state_ok a = true -> loop_state_ok (run_loop fresh is a) = true.
Proof.
  revert a. induction is as [|i rest IH]; intros a H; cbn [run_loop]; [exact H|].
  apply IH, main_loop_step_stable, H.
Qed.

Lemma main_loop_rests_sleeping_or_awake_witness :
  loop_state_ok init_agent = true
  /\ loop_state_ok (run_loop Scheduler.fixed_ids
                      [example_inputs 0; example_inputs hour_us; example_inputs day_us]
                      init_agent) = true.
Proof.
  assert (H : loop_state_ok init_agent = true) by reflexivity.
  split; [exact H|].
  exact (main_loop_rests_sleeping_or_awake Scheduler.fixed_ids
           [example_inputs 0; example_inputs hour_us; example_inputs day_us] init_agent H).
Defined.

(** [request_immediate_wakeup] registers no trigger: it draws an id from
    the counter and builds a trigger that it never adds.  On a sleeping
    agent it wakes the core ([AWAKE], returns [True]); otherwise it
    returns [False] and changes nothing. *)
Theorem request_immediate_wakeup_registers_nothing (why : string)
  (p : option (option datetime)) (t0 t1 t2 t3 : datetime) (fresh : Scheduler.IdSupply)
  (a : Agent) :
  (snd (request_immediate_wakeup why p t0 t1 t2 t3 fresh a)).(wakeup).(Wakeup._triggers)
    = a.(wakeup).(Wakeup._triggers)
  /\ if Core.is_sleeping a.(core)
     then fst (request_immediate_wakeup why p t0 t1 t2 t3 fresh a) = Return true
          /\ (snd (request_immediate_wakeup why p t0 t1 t2 t3 fresh a)).(core).(Core._state)
             = Core.AWAKE
          /\ (snd (request_immediate_wakeup why p t0 t1 t2 t3 fresh a)).(wakeup)
               .(Wakeup._trigger_id_counter) = S a.(wakeup).(Wakeup._trigger_id_counter)
     else request_immediate_wakeup why p t0 t1 t2 t3 fresh a = (Return false, a).
Proof.
  unfold request_immediate_wakeup.
  destruct (Core.is_sleeping (core a)) eqn:Hs; [|split; reflexivity].
  assert (Hs' : Core._state (core a) = Core.SLEEPING)
    by (unfold Core.is_sleeping in Hs; destruct (Core._state (core a)); congruence).
  unfold Wakeup._next_trigger_id. cbv zeta.
  destruct (agent_wake_up_sleeping why p t1 t2 t3 fresh
              (mkAgent (core a) (sched a)
                 (Wakeup.mkWakeupManager (Wakeup._triggers (wakeup a))
                    (S (Wakeup._trigger_id_counter (wakeup a)))) (next_fresh a)) Hs')
    as [c' [-> [H1 _]]].
  cbn. auto.
Qed.

End AgentProofs.
